(** * awflow: the dependency decorators and the Slurm executor

    A shallow embedding of [awflow/decorators/node.py] and
    [awflow/backends/slurm/executor.py].  Python objects that the code
    mutates (the registry of nodes, the workflow handed to [execute]) are
    threaded as explicit state; exceptions are an explicit result; calls to
    the operating system and to the parts of awflow that live in other
    modules are recorded in a chronological trace of events. *)

From Stdlib Require Import ZArith String Ascii.
From stdpp Require Import gmap strings list pretty.

Open Scope string_scope.
Open Scope list_scope.
Open Scope nat_scope.

(** ** Python values *)

(** A task definition: the identity of the decorated callable. *)
Definition Callable := positive.

(** The classes of exceptions: [ValueError], [KeyError], [Exception] itself
    and any other class derived from [Exception] ([OtherError]), and the
    three classes that derive from [BaseException] only. *)
Inductive exn_class :=
  | ValueError | KeyError | Exception | OtherError (cls : string)
  | KeyboardInterrupt | SystemExit | GeneratorExit.

(** An exception object: its class and [str(e)]. *)
Inductive exn := Exn (cls : exn_class) (msg : string).

Definition exn_str (e : exn) : string := let 'Exn _ msg := e in msg.

(** [isinstance(e, Exception)] *)
Definition is_Exception (e : exn) : bool :=
  match e with
  | Exn (KeyboardInterrupt | SystemExit | GeneratorExit) _ => false
  | Exn _ _ => true
  end.

Inductive result (A : Type) := Ok (a : A) | Raise (e : exn).
Arguments Ok {A} a.
Arguments Raise {A} e.

Definition result_bind {A B} (r : result A) (k : A → result B) : result B :=
  match r with
  | Ok a => k a
  | Raise e => Raise e
  end.

Notation "x <~ r ;; k" := (result_bind r (fun x => k))
  (at level 100, r at next level, right associativity).

(** The double-quote character and the line feed. *)
Definition quote : string := String "034"%char EmptyString.
Definition newline : string := String "010"%char EmptyString.

(** ** Nodes and graphs *)

(** Modelled from the spec: the [Node] class ([awflow/node.py]) is the spec's
    Node of section 3: an [identifier] unique per declared task and derived
    from the underlying work definition, a display [name], the replica count
    [tasks], the [attributes] mapping in insertion order, and the
    [dependencies], held as references to other nodes of the same graph. *)
Record Node := mkNode {
  identifier : Callable;
  name : string;
  tasks : Z;
  attributes : list (string * string);
  dependencies : list Callable
}.

(** Modelled from the spec: the graph owns its nodes and exposes them as
    [nodes], in registration order. *)
Record DAWG := mkDAWG { nodes : list Node }.

(** [node[key]] and [node[key] = value] on the insertion-ordered mapping:
    reading an absent key raises [KeyError]; assigning an existing key keeps
    its position, a new key goes last. *)
Fixpoint dict_get (key : string) (d : list (string * string)) : option string :=
  match d with
  | [] => None
  | (k, v) :: rest => if String.eqb key k then Some v else dict_get key rest
  end.

Fixpoint dict_set (key value : string) (d : list (string * string))
  : list (string * string) :=
  match d with
  | [] => [(key, value)]
  | (k, v) :: rest =>
      if String.eqb key k then (key, value) :: rest
      else (k, v) :: dict_set key value rest
  end.

Definition getitem (node : Node) (key : string) : result string :=
  match dict_get key (attributes node) with
  | Some v => Ok v
  | None => Raise (Exn KeyError key)
  end.

Definition setitem (key value : string) (node : Node) : Node :=
  mkNode (identifier node) (name node) (tasks node)
         (dict_set key value (attributes node)) (dependencies node).

(** ** State and exceptions together *)

(** A computation over a mutable state [S]: the state after the call is
    returned whether the call returns or raises, since Python does not undo
    the mutations made before an exception. *)
Definition M (S A : Type) : Type := S → result A * S.

Definition ret {S A} (a : A) : M S A := λ s, (Ok a, s).
Definition raise {S A} (e : exn) : M S A := λ s, (Raise e, s).
Definition bind {S A B} (m : M S A) (k : A → M S B) : M S B :=
  λ s, match m s with
       | (Ok a, s') => k a s'
       | (Raise e, s') => (Raise e, s')
       end.
(** [try: m  except Exception as e: h e]: an exception that is not an
    instance of [Exception] passes through. *)
Definition try_except {S A} (m : M S A) (h : exn → M S A) : M S A :=
  λ s, match m s with
       | (Ok a, s') => (Ok a, s')
       | (Raise e, s') => if is_Exception e then h e s' else (Raise e, s')
       end.
Definition lift {S A} (r : result A) : M S A := λ s, (r, s).

Notation "x <- m ;; k" := (bind m (fun x => k))
  (at level 100, m at next level, right associativity).
Notation "m ;;; k" := (bind m (fun _ => k))
  (at level 100, right associativity).

(** ** The collaborators

    Code of awflow and of the Python runtime that the two modules call but
    that is defined elsewhere. *)
Class Collaborators := {
  (** the display name [Node(f)] derives from the callable *)
  definition_name : Callable → string;
  (** [id(node)] of the node registered for a definition *)
  object_id : Callable → Z;
  (** [os.path.abspath] *)
  abspath : string → string;
  (** the directory [tempfile.mkdtemp(dir=dir)] creates *)
  mkdtemp : string → string;
  (** [workflow.program()] *)
  program : DAWG → result (list Node);
  (** [plugins.apply_defaults(workflow, **kwargs)] *)
  apply_defaults : DAWG → list (string * string) → result DAWG;
  (** [awflow.utils.executor]: each may mutate the workflow or raise *)
  generate_postconditions : DAWG → string → result DAWG;
  generate_executables : DAWG → string → result DAWG;
  generate_metadata : DAWG → string → result DAWG;
  executable_name : Node → string;
  (** [workflow.prune()] *)
  prune : DAWG → result DAWG;
  (** [plugins.generate_before], [plugins.generate_after] *)
  generate_before : Node → list string;
  generate_after : Node → list string;
  (** [os.system]: the return code, or the exception it raises *)
  os_system : string → result Z
}.

(** ** decorators/node.py *)

Section Decorators.
Context `{Collaborators}.

Definition find_node (g : DAWG) (c : Callable) : option Node :=
  List.find (λ n, bool_decide (identifier n = c)) (nodes g).

(** Modelled from the spec: [add_and_get_node] ([awflow/utils/dawg.py]) is
    the spec's [get_or_create]: it returns the canonical node of a task
    definition and creates it, last in registration order, on first
    reference.  The node is returned by reference, that is, by its key. *)
Definition add_and_get_node (c : Callable) : M DAWG Callable :=
  λ g, match find_node g c with
       | Some _ => (Ok c, g)
       | None => (Ok c, mkDAWG (nodes g ++ [mkNode c (definition_name c) 1 [] []]))
       end.

Definition add_to_set (d : Callable) (s : list Callable) : list Callable :=
  if bool_decide (d ∈ s) then s else s ++ [d].

(** Modelled from the spec: [Node.add_dependency] adds [dependency_node] to
    [node.dependencies] (a set) and fails when [node is dependency_node]. *)
Definition add_dependency (node dependency_node : Callable) : M DAWG unit :=
  λ g, if bool_decide (node = dependency_node)
       then (Raise (Exn (OtherError "SelfDependencyError") ""), g)
       else (Ok tt,
             mkDAWG (map (λ n, if bool_decide (identifier n = node)
                               then mkNode (identifier n) (name n) (tasks n) (attributes n)
                                           (add_to_set dependency_node (dependencies n))
                               else n) (nodes g))).

(** The argument of the decorator: a list of dependencies or a single one
    ([is_iterable] tells them apart). *)
Inductive dependencies_arg := Single (d : Callable) | Many (ds : list Callable).

Definition as_list (a : dependencies_arg) : list Callable :=
  match a with
  | Single d => [d]
  | Many ds => ds
  end.

Fixpoint dependency_loop (f : Callable) (ds : list Callable) : M DAWG unit :=
  match ds with
  | [] => ret tt
  | d :: rest =>
      if bool_decide (f = d)
      then raise (Exn ValueError "A function cannot depend on itself.")
      else dependency_node <- add_and_get_node d ;;
           add_dependency f dependency_node ;;;
           dependency_loop f rest
  end.

Definition dependency (f : Callable) (deps : dependencies_arg) : M DAWG Callable :=
  node <- add_and_get_node f ;;
  dependency_loop node (as_list deps) ;;;
  ret f.

Definition conda (f : Callable) (environment : string) : M DAWG Callable :=
  node <- add_and_get_node f ;;
  (λ g, (Ok f,
         mkDAWG (map (λ n, if bool_decide (identifier n = node)
                           then setitem "conda" environment n else n) (nodes g)))).

End Decorators.

(** ** backends/slurm/executor.py *)

(** What a run does to the outside world, in the order it happens. *)
Inductive Event :=
  | EvMakedirs (path : string)
  | EvMkdtemp (dir : string)
  | EvProgram
  | EvApplyDefaults
  | EvGeneratePostconditions (dir : string)
  | EvPrune
  | EvGenerateExecutables (dir : string)
  | EvGenerateMetadata (dir : string)
  | EvWriteFile (path content : string)
  | EvSystem (command : string)
  | EvPrint (text : string)
  | EvRmtree (path : string).

(** The state of a run: the workflow object and the events so far. *)
Record World := mkWorld { workflow : DAWG; trace : list Event }.

(** Which calls to the operating system raise, and what they raise; the
    answer may depend on the calls made so far. *)
Record OS := mkOS { os_fails : list Event → Event → option exn }.

(** An operating system whose calls all return. *)
Definition reliable : OS := mkOS (λ _ _, None).

(** A call to the operating system: it is recorded, then it returns or
    raises. *)
Definition os_call (os : OS) (e : Event) : M World unit :=
  λ w, match os_fails os (trace w) e with
       | None => (Ok tt, mkWorld (workflow w) (trace w ++ [e]))
       | Some x => (Raise x, mkWorld (workflow w) (trace w ++ [e]))
       end.

(** A call into another module on the workflow object: the call is recorded,
    then it either mutates the workflow or raises. *)
Definition call (e : Event) (op : DAWG → result DAWG) : M World unit :=
  λ w, match op (workflow w) with
       | Ok wf' => (Ok tt, mkWorld wf' (trace w ++ [e]))
       | Raise x => (Raise x, mkWorld (workflow w) (trace w ++ [e]))
       end.

Section Executor.
Context `{Collaborators}.

Definition call_program : M World (list Node) :=
  λ w, (program (workflow w), mkWorld (workflow w) (trace w ++ [EvProgram])).

Definition add_default_attributes_node (dir : string) (node : Node) : Node :=
  let node := setitem "--export=" "ALL" node in
  let node := setitem "--parsable" "" node in
  let node := setitem "--requeue" "" node in
  let node := setitem "--job-name=" (quote +:+ name node +:+ quote) node in
  let fmt := quote +:+ dir +:+ "/logs/" +:+ name node in
  let fmt := if (1 <? tasks node)%Z then fmt +:+ "-%A_%a.log" else fmt +:+ "-%j.log" in
  setitem "--output=" (fmt +:+ quote) node.

Definition add_default_attributes (dir : string) : M World unit :=
  λ w, (Ok tt,
        mkWorld (mkDAWG (map (add_default_attributes_node dir) (nodes (workflow w))))
                (trace w)).

Definition node_task_filename (node : Node) : string :=
  pretty (object_id (identifier node)) +:+ ".sbatch".

(** The loop over [node.attributes] of [generate_task_files]. *)
Fixpoint attribute_lines (node : Node) (keys : list string) (lines : list string)
  : result (list string) :=
  match keys with
  | [] => Ok lines
  | key :: rest =>
      if negb (String.eqb (substring 0 2 key) "--")
      then attribute_lines node rest lines
      else value <~ getitem node key ;;
           let line := "#SBATCH " +:+ key +:+ value in
           attribute_lines node rest (lines ++ [line])
  end.

(** The body of the loop of [generate_task_files]: the lines of the task
    file of one node. *)
Definition task_file_lines (dir : string) (node : Node) : result (list string) :=
  let lines := [] in
  let lines := lines ++ ["#!/usr/bin/env bash"] in
  lines <~ attribute_lines node (map fst (attributes node)) lines ;;
  let '(lines, command_suffix) :=
    if (1 <? tasks node)%Z
    then (lines ++ ["#SBATCH --array 0-" +:+ pretty (tasks node - 1)%Z],
          " $SLURM_ARRAY_TASK_ID")
    else (lines, "") in
  let commands := [] in
  let commands := commands ++ generate_before node in
  let absolute_path := abspath (dir +:+ "/" +:+ executable_name node) in
  let commands :=
    commands ++ ["python -u -m awflow.bin.processor " +:+ absolute_path +:+ command_suffix] in
  let commands := commands ++ generate_after node in
  Ok (lines ++ commands).

(** [for line in lines: f.write(line + '\n')] *)
Fixpoint write_lines (lines : list string) : string :=
  match lines with
  | [] => ""
  | line :: rest => (line +:+ newline) +:+ write_lines rest
  end.

(** [with open(path, 'w') as f: ...] is one call to the operating system:
    it raises, for instance when the directory is missing, or the file is
    written. *)
Fixpoint generate_task_files_loop (os : OS) (dir : string) (ns : list Node) : M World unit :=
  match ns with
  | [] => ret tt
  | node :: rest =>
      lines <- lift (task_file_lines dir node) ;;
      os_call os (EvWriteFile (dir +:+ "/" +:+ node_task_filename node) (write_lines lines)) ;;;
      generate_task_files_loop os dir rest
  end.

Definition generate_task_files_on (os : OS) (dir : string) : M World unit :=
  λ w, generate_task_files_loop os dir (nodes (workflow w)) w.

(** The local variables of [generate_submission_script]. *)
Record script_state := mkScript {
  st_lines : list string;
  st_job_identifiers : string;
  st_tasks : gmap Callable nat
}.

(** [for dependency in task.dependencies: ...]; the subscript
    [tasks[dependency.identifier]] raises [KeyError] on an absent key. *)
Fixpoint dependency_flag (tasks : gmap Callable nat) (deps : list Callable)
    (flag : string) : result string :=
  match deps with
  | [] => Ok flag
  | dependency :: rest =>
      match tasks !! dependency with
      | None => Raise (Exn KeyError (pretty dependency))
      | Some identifier => dependency_flag tasks rest (flag +:+ ":$t" +:+ pretty identifier)
      end
  end.

Definition submission_step (dir : string) (st : script_state)
    (task_index : nat) (task : Node) : result script_state :=
  let tasks := <[identifier task := task_index]> (st_tasks st) in
  let line := "t" +:+ pretty task_index +:+ "=$(sbatch " in
  line <~ (if (0 <? length (dependencies task))%nat
           then flag <~ dependency_flag tasks (dependencies task) "--dependency=afterok" ;;
                Ok (line +:+ flag +:+ " ")
           else Ok line) ;;
  let line := line +:+ dir +:+ "/" +:+ node_task_filename task +:+ ")" in
  Ok (mkScript (st_lines st ++ [line])
               (st_job_identifiers st +:+ "$t" +:+ pretty task_index +:+ newline)
               tasks).

(** [for task_index, task in enumerate(...)], from [task_index] on. *)
Fixpoint submission_loop (dir : string) (st : script_state) (task_index : nat)
    (tasks : list Node) : result script_state :=
  match tasks with
  | [] => Ok st
  | task :: rest =>
      st' <~ submission_step dir st task_index task ;;
      submission_loop dir st' (S task_index) rest
  end.

Definition script_init (dir : string) : script_state :=
  mkScript (([] ++ ["#!/usr/bin/env bash"]) ++ ["mkdir -p " +:+ dir +:+ "/logs"])
           ("echo " +:+ quote) ∅.

Definition generate_submission_script_on (os : OS) (dir : string) : M World unit :=
  tasks <- call_program ;;
  st <- lift (submission_loop dir (script_init dir) 0 tasks) ;;
  let job_identifiers := st_job_identifiers st +:+ quote +:+ " > " +:+ dir +:+ "/job_identifiers" in
  os_call os (EvWriteFile (dir +:+ "/pipeline") (write_lines (st_lines st) +:+ job_identifiers)).

Definition prepare_submission_on (os : OS) (dir : string) : M World unit :=
  add_default_attributes dir ;;;
  generate_task_files_on os dir ;;;
  generate_submission_script_on os dir.

Definition submit_on (os : OS) (dir : string) : M World unit :=
  return_code <- (λ w, (os_system ("bash " +:+ dir +:+ "/pipeline"),
                        mkWorld (workflow w)
                                (trace w ++ [EvSystem ("bash " +:+ dir +:+ "/pipeline")]))) ;;
  if negb (return_code =? 0)%Z
  then raise (Exn Exception "Failed to submit pipeline.")
  else os_call os
         (EvPrint ("Pipeline submitted. Logfiles are stored at `" +:+ (dir +:+ "/logs") +:+ "`")).

Definition execute_on (os : OS) (dir : string) (kwargs : list (string * string))
  : M World unit :=
  os_call os (EvMakedirs dir) ;;;
  os_call os (EvMkdtemp dir) ;;;
  let directory := abspath (mkdtemp dir) in
  program <- call_program ;;
  call EvApplyDefaults (λ wf, apply_defaults wf kwargs) ;;;
  call (EvGeneratePostconditions directory) (λ wf, generate_postconditions wf directory) ;;;
  call EvPrune prune ;;;
  (λ w,
     if (0 <? length (nodes (workflow w)))%nat
     then (call (EvGenerateExecutables directory) (λ wf, generate_executables wf directory) ;;;
           call (EvGenerateMetadata directory) (λ wf, generate_metadata wf directory) ;;;
           prepare_submission_on os directory ;;;
           try_except (submit_on os directory)
                      (λ e, os_call os (EvPrint (exn_str e)) ;;;
                            os_call os (EvRmtree directory))) w
     else os_call os (EvRmtree directory) w).

(** The same functions on an operating system whose calls all return. *)
Definition generate_task_files : string → M World unit :=
  generate_task_files_on reliable.
Definition generate_submission_script : string → M World unit :=
  generate_submission_script_on reliable.
Definition prepare_submission : string → M World unit :=
  prepare_submission_on reliable.
Definition submit : string → M World unit :=
  submit_on reliable.
Definition execute : string → list (string * string) → M World unit :=
  execute_on reliable.

End Executor.

(** ** What the claims speak about *)

(** A task definition is registered when the graph holds a node for it; the
    dependency set of a definition is that of its node. *)
Definition registered (g : DAWG) (c : Callable) : Prop := is_Some (find_node g c).

Definition deps_of (g : DAWG) (c : Callable) : list Callable :=
  match find_node g c with
  | Some n => dependencies n
  | None => []
  end.

(** The precondition on [workflow.program()]: every dependency of the node
    at position [i] is a node that occurs at an earlier position. *)
Definition topological (p : list Node) : Prop :=
  ∀ i t d, p !! i = Some t → d ∈ dependencies t →
    ∃ j t', (j < i)%nat ∧ p !! j = Some t' ∧ identifier t' = d.

(** Modelled from the spec: the identifier of a node ([Node.identifier], in
    [awflow/node.py]) is unique per declared task, so two entries of a
    program with one identifier are one node. *)
Definition unique_identifiers (p : list Node) : Prop :=
  ∀ i j t t', p !! i = Some t → p !! j = Some t' →
    identifier t = identifier t' → t = t'.

(** The scheduler directives of a node as the spec words them: one line per
    attribute whose key begins with the reserved prefix, in insertion
    order. *)
Definition sbatch_directives (node : Node) : list string :=
  map (λ kv, "#SBATCH " +:+ kv.1 +:+ kv.2)
      (filter (λ kv, String.prefix "--" kv.1 = true) (attributes node)).

(** The array directive and the command suffix of an array task. *)
Definition array_directive (node : Node) : list string :=
  if decide (1 < tasks node)%Z
  then ["#SBATCH --array 0-" +:+ pretty (tasks node - 1)%Z]
  else [].

Definition command_suffix (node : Node) : string :=
  if decide (1 < tasks node)%Z then " $SLURM_ARRAY_TASK_ID" else "".

(** The events of [execute] after pruning is over. *)
Definition after_pruning (e : Event) : Prop :=
  match e with
  | EvGeneratePostconditions _ | EvPrune => False
  | _ => True
  end.

(** A computation that only ever appends events satisfying [P] to the
    trace, whether it returns or raises. *)
Definition emits {A} (P : Event → Prop) (m : M World A) : Prop :=
  ∀ w, ∃ new, trace (m w).2 = trace w ++ new ∧ Forall P new.

(** ** The written files, line by line *)

(** The references [:$t<k>] to earlier jobs, in order. *)
Fixpoint job_references (indices : list nat) : string :=
  match indices with
  | [] => ""
  | k :: rest => ":$t" +:+ pretty k +:+ job_references rest
  end.

(** The lines [$t<i>] of the first [n] jobs, as [job_identifiers]
    accumulates them. *)
Fixpoint job_variables (n : nat) : string :=
  match n with
  | 0 => ""
  | S m => job_variables m +:+ "$t" +:+ pretty m +:+ newline
  end.

Section ScriptLines.
Context `{Collaborators}.

(** The line of the submission script for the task at position
    [task_index], given the positions [indices] of its dependencies. *)
Definition sbatch_line (dir : string) (task_index : nat) (task : Node)
    (indices : list nat) : string :=
  "t" +:+ pretty task_index +:+ "=$(sbatch " +:+
  match indices with
  | [] => ""
  | _ => "--dependency=afterok" +:+ job_references indices +:+ " "
  end +:+
  dir +:+ "/" +:+ node_task_filename task +:+ ")".

End ScriptLines.

(** ** The task files, line by line *)

(** The text of a file written line by line, each line followed by a line
    feed. *)
Definition file_text (lines : list string) : string :=
  String.concat "" (map (λ line, line +:+ newline) lines).

(** The directives of a node, key by key: for each key that begins with the
    reserved prefix, in insertion order, the line made of the key and of the
    value stored under it. *)
Definition directive_lines (node : Node) : list string :=
  map (λ key, "#SBATCH " +:+ key +:+ default "" (dict_get key (attributes node)))
      (filter (λ key, String.prefix "--" key = true) (attributes node).*1).

Section TaskFile.
Context `{Collaborators}.

(** The lines of the task file of a node: the interpreter line, the
    directives of the attributes, the array directive of an array task, and
    the processor command between the commands of the plugins. *)
Definition task_file (dir : string) (node : Node) : list string :=
  "#!/usr/bin/env bash" :: directive_lines node ++ array_directive node ++
  generate_before node ++
  ["python -u -m awflow.bin.processor " +:+
     abspath (dir +:+ "/" +:+ executable_name node) +:+ command_suffix node] ++
  generate_after node.

(** The call that writes the task file of a node. *)
Definition task_file_event (dir : string) (node : Node) : Event :=
  EvWriteFile (dir +:+ "/" +:+ node_task_filename node) (file_text (task_file dir node)).

End TaskFile.

(** ** A concrete environment, to run the definitions on examples *)

(** A pruner that drops the nodes carrying a [satisfied] attribute and the
    edges pointing to them; every other collaborator does as little as its
    interface allows.  [os.system] answers [rc]. *)
Definition example_prune (wf : DAWG) : DAWG :=
  let keep n := negb (bool_decide (is_Some (dict_get "satisfied" (attributes n)))) in
  let kept := map identifier (filter (λ n, keep n = true) (nodes wf)) in
  mkDAWG (map (λ n, mkNode (identifier n) (name n) (tasks n) (attributes n)
                           (filter (λ d, d ∈ kept) (dependencies n)))
              (filter (λ n, keep n = true) (nodes wf))).

Definition example_collaborators (rc : result Z) : Collaborators := {|
  definition_name c := "task" +:+ pretty c;
  object_id c := (140000 + Z.pos c)%Z;
  abspath p := if String.prefix "/" p then p else "/home/user/" +:+ p;
  mkdtemp d := d +:+ "/tmpq3x";
  program wf := Ok (nodes wf);
  apply_defaults wf _ := Ok wf;
  generate_postconditions wf _ := Ok wf;
  generate_executables wf _ := Ok wf;
  generate_metadata wf _ := Ok wf;
  executable_name n := pretty (identifier n) +:+ ".code";
  prune wf := Ok (example_prune wf);
  generate_before n :=
    match dict_get "conda" (attributes n) with
    | Some env => ["conda activate " +:+ env]
    | None => []
    end;
  generate_after _ := [];
  os_system _ := rc
|}.

(** Three tasks: 2 depends on 1, 3 depends on 1 and 2; task 3 is an array
    task of four replicas with a user-set attribute and a conda
    environment. *)
Definition example_graph : DAWG :=
  mkDAWG [ mkNode 1%positive "prepare" 1 [] [];
           mkNode 2%positive "train" 1 [("--mem=", "4G")] [1%positive];
           mkNode 3%positive "evaluate" 4 [("conda", "ml"); ("--export=", "NONE")]
                  [1%positive; 2%positive] ].

(** The same graph with every postcondition already satisfied. *)
Definition example_done : DAWG :=
  mkDAWG (map (setitem "satisfied" "yes") (nodes example_graph)).

(** The environment in which the scheduler accepts the submission, and the
    one in which it refuses it. *)
Definition example_env : Collaborators := example_collaborators (Ok 0%Z).
Definition example_env_failing : Collaborators := example_collaborators (Ok 1%Z).

(** The environment in which the call to the scheduler is interrupted from
    the keyboard. *)
Definition example_env_interrupted : Collaborators :=
  example_collaborators (Raise (Exn KeyboardInterrupt "")).

(** An operating system on which no file can be written, as when the
    directory is missing. *)
Definition example_os_no_directory : OS :=
  mkOS (λ _ e, match e with
               | EvWriteFile path _ =>
                   Some (Exn (OtherError "FileNotFoundError") path)
               | _ => None
               end).

(** A node that is not an array task and spells an array directive in its
    own attributes. *)
Definition example_spelled_array : Node :=
  mkNode 7%positive "single" 1 [("--array ", "0-0")] [].

(** * Proofs *)

(** ** Strings and dictionaries *)

Lemma append_assoc (a b c : string) : (a +:+ b) +:+ c = a +:+ b +:+ c.
Proof.
  induction a as [|x a IH]; [done|].
  change (String x ((a +:+ b) +:+ c) = String x (a +:+ b +:+ c)). by rewrite IH.
Qed.

Lemma append_empty_r (a : string) : a +:+ "" = a.
Proof.
  induction a as [|x a IH]; [done|].
  change (String x (a +:+ "") = String x a). by rewrite IH.
Qed.

Lemma dict_get_set_eq key value d : dict_get key (dict_set key value d) = Some value.
Proof.
  induction d as [|[k v] d IH]; simpl.
  - by rewrite String.eqb_refl.
  - destruct (String.eqb key k) eqn:E; simpl.
    + by rewrite String.eqb_refl.
    + by rewrite E.
Qed.

Lemma dict_get_set_ne key key' value d :
  key ≠ key' → dict_get key' (dict_set key value d) = dict_get key' d.
Proof.
  intros Hne. induction d as [|[k v] d IH]; simpl.
  - destruct (String.eqb key' key) eqn:E; [|done].
    apply String.eqb_eq in E. congruence.
  - destruct (String.eqb key k) eqn:E; simpl.
    + apply String.eqb_eq in E. subst k.
      destruct (String.eqb key' key) eqn:E'; [|done].
      apply String.eqb_eq in E'. congruence.
    + by rewrite IH.
Qed.

Lemma dict_get_key k v d : (k, v) ∈ d → is_Some (dict_get k d).
Proof.
  induction d as [|[k' v'] d IH]; [by intros ?%elem_of_nil|].
  intros Hin. simpl. destruct (String.eqb k k') eqn:E; [by eexists|].
  apply elem_of_cons in Hin as [Heq|Hin]; [|by apply IH].
  simplify_eq. by rewrite String.eqb_refl in E.
Qed.

Lemma dict_get_NoDup k v d : NoDup d.*1 → (k, v) ∈ d → dict_get k d = Some v.
Proof.
  induction d as [|[k' v'] d IH]; [by intros _ ?%elem_of_nil|].
  rewrite fmap_cons, NoDup_cons. intros [Hk Hd] Hin. simpl in *.
  apply elem_of_cons in Hin as [Heq|Hin].
  - simplify_eq. by rewrite String.eqb_refl.
  - destruct (String.eqb k k') eqn:E; [|by apply IH].
    apply String.eqb_eq in E. subst k'. destruct Hk.
    apply list_elem_of_fmap. by exists (k, v).
Qed.

(** ** The registry *)

Section DecoratorFacts.
Context `{Collaborators}.

Lemma find_node_app g_nodes n c :
  find_node (mkDAWG (g_nodes ++ [n])) c =
    match find_node (mkDAWG g_nodes) c with
    | Some m => Some m
    | None => if bool_decide (identifier n = c) then Some n else None
    end.
Proof.
  unfold find_node. simpl. induction g_nodes as [|m l IH]; simpl; [done|].
  by destruct (bool_decide (identifier m = c)).
Qed.

Lemma find_node_map (h : Node → Node) g c :
  (∀ n, identifier (h n) = identifier n) →
  find_node (mkDAWG (map h (nodes g))) c = h <$> find_node g c.
Proof.
  intros Hh. unfold find_node. simpl. induction (nodes g) as [|m l IH]; simpl; [done|].
  rewrite Hh. by destruct (bool_decide (identifier m = c)).
Qed.

Lemma find_node_identifier g c n : find_node g c = Some n → identifier n = c.
Proof.
  unfold find_node. intros Hf. apply find_some in Hf as [_ Hb].
  by apply bool_decide_eq_true in Hb.
Qed.

Lemma elem_of_add_to_set x d s : x ∈ add_to_set d s ↔ x = d ∨ x ∈ s.
Proof.
  unfold add_to_set. case_bool_decide.
  - split; [by right | by intros [->|]].
  - rewrite elem_of_app, list_elem_of_singleton. tauto.
Qed.

(** [add_and_get_node] returns the key, registers it, and changes nothing
    else. *)
Lemma add_and_get_node_spec c g :
  ∃ g', add_and_get_node c g = (Ok c, g') ∧
        (∀ c', registered g' c' ↔ registered g c' ∨ c' = c) ∧
        (∀ c', deps_of g' c' = deps_of g c').
Proof.
  unfold add_and_get_node. destruct (find_node g c) as [n|] eqn:Hf.
  - exists g. split; [done|]. split; [|done].
    intros c'. split; [by left|]. intros [?| ->]; [done|]. unfold registered. by rewrite Hf.
  - eexists. split; [done|]. destruct g as [l]. simpl. split.
    + intros c'. unfold registered. rewrite find_node_app.
      destruct (find_node (mkDAWG l) c') eqn:Hf'.
      * split; [by left | by intros _].
      * simpl. case_bool_decide; subst.
        -- split; [by right | by intros _].
        -- split; [by intros [? ?] |]. intros [[? ?]|?]; done.
    + intros c'. unfold deps_of. rewrite find_node_app.
      destruct (find_node (mkDAWG l) c') eqn:Hf'; [done|].
      by case_bool_decide.
Qed.

(** [add_dependency] between two distinct keys adds one edge. *)
Lemma add_dependency_spec c d g :
  c ≠ d →
  ∃ g', add_dependency c d g = (Ok tt, g') ∧
        (∀ c', registered g' c' ↔ registered g c') ∧
        (∀ c' x, x ∈ deps_of g' c' ↔
                 x ∈ deps_of g c' ∨ (c' = c ∧ x = d ∧ registered g c)).
Proof.
  intros Hne. unfold add_dependency. rewrite bool_decide_eq_false_2 by done.
  eexists. split; [done|]. split.
  - intros c'. unfold registered. rewrite find_node_map.
    + by rewrite fmap_is_Some.
    + intros n. by case_bool_decide.
  - intros c' x. unfold deps_of, registered. rewrite find_node_map.
    2:{ intros n. by case_bool_decide. }
    destruct (find_node g c') as [n|] eqn:Hf; simpl.
    + pose proof (find_node_identifier _ _ _ Hf) as Hid.
      case_bool_decide; simpl.
      * rewrite elem_of_add_to_set. subst. rewrite Hf.
        split; [intros [->|?]; [right | by left] | intros [?|(_ & -> & _)]; [by right | by left]].
        done.
      * split; [by left|]. intros [?|(-> & _)]; [done | congruence].
    + split; [by left|]. intros [?|(-> & _ & [? ?])]; [done | congruence].
Qed.

(** The loop of [dependency]: when the decorated function is not among the
    dependencies, every one of them is registered and linked. *)
Lemma dependency_loop_ok f ds g :
  f ∉ ds → registered g f →
  ∃ g', dependency_loop f ds g = (Ok tt, g') ∧
        (∀ c, registered g' c ↔ registered g c ∨ c ∈ ds) ∧
        (∀ c x, x ∈ deps_of g' c ↔ x ∈ deps_of g c ∨ (c = f ∧ x ∈ ds)).
Proof.
  revert g. induction ds as [|d ds IH]; intros g Hnot Hreg; simpl.
  - exists g. split; [done|]. split; intros; rewrite elem_of_nil; tauto.
  - apply not_elem_of_cons in Hnot as [Hne Hnot].
    rewrite bool_decide_eq_false_2 by done.
    destruct (add_and_get_node_spec d g) as (g1 & E1 & R1 & D1).
    destruct (add_dependency_spec f d g1 Hne) as (g2 & E2 & R2 & D2).
    destruct (IH g2 Hnot) as (g3 & E3 & R3 & D3).
    { apply R2, R1. by left. }
    exists g3. unfold bind at 1. rewrite E1. unfold bind at 1. rewrite E2.
    split; [done|]. split.
    + intros c. rewrite R3, R2, R1, elem_of_cons. tauto.
    + intros c x. rewrite D3, D2, D1, elem_of_cons.
      assert (registered g1 f) by (apply R1; by left). intuition (subst; auto).
Qed.

(** The loop stops at the first occurrence of the decorated function. *)
Lemma dependency_loop_self f pre post g :
  f ∉ pre → registered g f →
  ∃ g', dependency_loop f pre g = (Ok tt, g') ∧
        dependency_loop f (pre ++ f :: post) g =
          (Raise (Exn ValueError "A function cannot depend on itself."), g').
Proof.
  revert g. induction pre as [|d pre IH]; intros g Hnot Hreg; simpl.
  - exists g. by rewrite bool_decide_eq_true_2.
  - apply not_elem_of_cons in Hnot as [Hne Hnot].
    rewrite bool_decide_eq_false_2 by done.
    destruct (add_and_get_node_spec d g) as (g1 & E1 & R1 & D1).
    destruct (add_dependency_spec f d g1 Hne) as (g2 & E2 & R2 & D2).
    destruct (IH g2 Hnot) as (g3 & E3 & E4).
    { apply R2, R1. by left. }
    exists g3. unfold bind. rewrite E1, E2. done.
Qed.

End DecoratorFacts.

Section DecoratorClaims.
Context `{Collaborators}.

(** C5.  A call [dependency(f, ds)], where [ds] is a single task definition
    other than [f] (taken as the list of that one definition) or a list of
    task definitions none of which is [f], returns [f]; afterwards [f] and
    every element of [ds] are registered in the graph and every element of
    [ds] is in the dependency set of the node of [f]. *)
Theorem C5_dependency_registers_and_links (f : Callable) (deps : dependencies_arg) (g : DAWG) :
  match deps with
  | Single d => f ≠ d
  | Many ds => f ∉ ds
  end →
  ∃ g', dependency f deps g = (Ok f, g') ∧
        registered g' f ∧
        match deps with
        | Single d => registered g' d ∧ d ∈ deps_of g' f
        | Many ds => ∀ d, d ∈ ds → registered g' d ∧ d ∈ deps_of g' f
        end.
Proof.
  intros Hnot.
  assert (f ∉ as_list deps) as Hnot'.
  { destruct deps as [d|ds]; simpl; [|done]. intros Hin.
    apply list_elem_of_singleton in Hin. done. }
  unfold dependency.
  destruct (add_and_get_node_spec f g) as (g1 & E1 & R1 & D1).
  destruct (dependency_loop_ok f (as_list deps) g1 Hnot') as (g2 & E2 & R2 & D2).
  { apply R1. by right. }
  exists g2. unfold bind, ret. rewrite E1, E2. split; [done|]. split.
  - apply R2. left. apply R1. by right.
  - destruct deps as [d|ds]; simpl in *.
    + split; [apply R2; right | apply D2; right; split; [done|]];
        by apply list_elem_of_singleton.
    + intros d Hd. split; [apply R2; by right | apply D2; by right].
Qed.

(** C2, as the code has it.  Declaring that [f] depends on itself raises
    the error, and the graph is left as the declaration of the dependencies
    listed before [f] leaves it: [f] is registered, those dependencies are
    registered and linked, nothing listed from [f] on is processed, and no
    edge from [f] to itself is added. *)
Theorem C2_self_dependency_raises (f : Callable) (deps : dependencies_arg)
    (pre post : list Callable) (g : DAWG) :
  as_list deps = pre ++ f :: post → f ∉ pre →
  ∃ g', dependency f deps g =
          (Raise (Exn ValueError "A function cannot depend on itself."), g') ∧
        dependency f (Many pre) g = (Ok f, g') ∧
        (∀ c, registered g' c ↔ registered g c ∨ c = f ∨ c ∈ pre) ∧
        (∀ c x, x ∈ deps_of g' c ↔ x ∈ deps_of g c ∨ (c = f ∧ x ∈ pre)) ∧
        (f ∈ deps_of g' f ↔ f ∈ deps_of g f).
Proof.
  intros Hsplit Hnot. unfold dependency. rewrite Hsplit. simpl.
  destruct (add_and_get_node_spec f g) as (g1 & E1 & R1 & D1).
  assert (registered g1 f) as Hreg by (apply R1; by right).
  destruct (dependency_loop_self f pre post g1 Hnot Hreg) as (g2 & E2 & E3).
  destruct (dependency_loop_ok f pre g1 Hnot Hreg) as (g2' & E2' & R2 & D2).
  rewrite E2 in E2'. injection E2' as <-.
  exists g2. unfold bind, ret. rewrite E1, E2, E3.
  split; [done|]. split; [done|]. split; [|split].
  - intros c. rewrite R2, R1. tauto.
  - intros c x. by rewrite D2, D1.
  - rewrite D2, D1. split; [|by left]. intros [?|[_ ?]]; done.
Qed.

End DecoratorClaims.

(** C2 as the spec states it fails: after the rejected declaration the
    graph holds a node for the task, and, when other dependencies were
    listed first, their nodes and edges too. *)
Lemma C2_graph_changed_by_rejected_declaration :
  (∃ g', @dependency example_env 1%positive (Single 1%positive) (mkDAWG []) =
           (Raise (Exn ValueError "A function cannot depend on itself."), g') ∧
         g' ≠ mkDAWG [] ∧ registered g' 1%positive) ∧
  (∃ g', @dependency example_env 1%positive (Many [2%positive; 1%positive]) (mkDAWG []) =
           (Raise (Exn ValueError "A function cannot depend on itself."), g') ∧
         registered g' 2%positive ∧ deps_of g' 1%positive = [2%positive]).
Proof.
  split; eexists; (split; [vm_compute; reflexivity|]).
  - split; [discriminate | by eexists].
  - split; [by eexists | reflexivity].
Qed.

Lemma C2_self_dependency_raises_witness :
  as_list (Many [2%positive; 1%positive; 3%positive]) = [2%positive] ++ 1%positive :: [3%positive] ∧
  (1%positive ∉ [2%positive]) ∧
  ∃ g', @dependency example_env 1%positive (Many [2%positive; 1%positive; 3%positive]) (mkDAWG []) =
          (Raise (Exn ValueError "A function cannot depend on itself."), g') ∧
        @dependency example_env 1%positive (Many [2%positive]) (mkDAWG []) = (Ok 1%positive, g') ∧
        (∀ c, registered g' c ↔ registered (mkDAWG []) c ∨ c = 1%positive ∨ c ∈ [2%positive]) ∧
        (∀ c x, x ∈ deps_of g' c ↔
                x ∈ deps_of (mkDAWG []) c ∨ (c = 1%positive ∧ x ∈ [2%positive])) ∧
        (1%positive ∈ deps_of g' 1%positive ↔ 1%positive ∈ deps_of (mkDAWG []) 1%positive).
Proof.
  assert (1%positive ∉ [2%positive]) as Hnot.
  { intros Hin. apply list_elem_of_singleton in Hin. discriminate. }
  split; [reflexivity|]. split; [exact Hnot|].
  apply (@C2_self_dependency_raises example_env 1%positive
           (Many [2%positive; 1%positive; 3%positive]) [2%positive] [3%positive]
           (mkDAWG []) eq_refl Hnot).
Defined.

Lemma C5_dependency_registers_and_links_witness :
  ((2%positive ≠ 1%positive) ∧
   @dependency example_env 2%positive (Single 1%positive) (mkDAWG []) =
     (Ok 2%positive,
      mkDAWG [mkNode 2%positive "task2" 1 [] [1%positive];
              mkNode 1%positive "task1" 1 [] []]) ∧
   ∃ g', @dependency example_env 2%positive (Single 1%positive) (mkDAWG []) =
           (Ok 2%positive, g') ∧
         registered g' 2%positive ∧
         registered g' 1%positive ∧ 1%positive ∈ deps_of g' 2%positive) ∧
  ((3%positive ∉ [1%positive; 2%positive]) ∧
   @dependency example_env 3%positive (Many [1%positive; 2%positive]) (mkDAWG []) =
     (Ok 3%positive,
      mkDAWG [mkNode 3%positive "task3" 1 [] [1%positive; 2%positive];
              mkNode 1%positive "task1" 1 [] [];
              mkNode 2%positive "task2" 1 [] []]) ∧
   ∃ g', @dependency example_env 3%positive (Many [1%positive; 2%positive]) (mkDAWG []) =
           (Ok 3%positive, g') ∧
         registered g' 3%positive ∧
         ∀ d, d ∈ [1%positive; 2%positive] →
              registered g' d ∧ d ∈ deps_of g' 3%positive).
Proof.
  assert (2%positive ≠ 1%positive) as Hne by discriminate.
  assert (3%positive ∉ [1%positive; 2%positive]) as Hnot.
  { intros Hin. apply elem_of_cons in Hin as [?|Hin]; [discriminate|].
    apply list_elem_of_singleton in Hin. discriminate. }
  split.
  - split; [exact Hne|]. split; [vm_compute; reflexivity|].
    exact (@C5_dependency_registers_and_links example_env 2%positive
             (Single 1%positive) (mkDAWG []) Hne).
  - split; [exact Hnot|]. split; [vm_compute; reflexivity|].
    exact (@C5_dependency_registers_and_links example_env 3%positive
             (Many [1%positive; 2%positive]) (mkDAWG []) Hnot).
Defined.

(** ** The task files *)

Lemma prefix_cons a p b k :
  String.prefix (String a p) (String b k) = if Ascii.eqb a b then String.prefix p k else false.
Proof.
  change (String.prefix (String a p) (String b k))
    with (if ascii_dec a b then String.prefix p k else false).
  destruct (ascii_dec a b) as [->|Hne].
  - by rewrite Ascii.eqb_refl.
  - apply Ascii.eqb_neq in Hne. by rewrite Hne.
Qed.

Lemma prefix_append (p k v : string) :
  String.prefix p k = true → String.prefix p (k +:+ v) = true.
Proof.
  revert k. induction p as [|a p IH]; intros k.
  { intros _. by destruct (k +:+ v). }
  destruct k as [|b k]; [done|].
  change (String b k +:+ v) with (String b (k +:+ v)). rewrite !prefix_cons.
  destruct (Ascii.eqb a b); [apply IH | done].
Qed.

(** The slice [key[:2]] equals the prefix exactly when [key] begins with it. *)
Lemma slice_is_prefix (key : string) :
  String.eqb (substring 0 2 key) "--" = String.prefix "--" key.
Proof.
  destruct key as [|a [|b s]].
  - reflexivity.
  - rewrite prefix_cons, Ascii.eqb_sym. cbn. by destruct (Ascii.eqb a "-").
  - rewrite !prefix_cons, !(Ascii.eqb_sym "-"). cbn.
    destruct (Ascii.eqb a "-"), (Ascii.eqb b "-"), s; reflexivity.
Qed.

Section TaskFileFacts.
Context `{Collaborators}.

Lemma task_file_tail dir node lines :
  (let '(lines, command_suffix) :=
     if (1 <? tasks node)%Z
     then (lines ++ ["#SBATCH --array 0-" +:+ pretty (tasks node - 1)%Z],
           " $SLURM_ARRAY_TASK_ID")
     else (lines, "") in
   Ok (A:=list string)
      (lines ++ (([] ++ generate_before node) ++
        ["python -u -m awflow.bin.processor " +:+
           abspath (dir +:+ "/" +:+ executable_name node) +:+ command_suffix]) ++
        generate_after node)) =
  Ok (lines ++ array_directive node ++ generate_before node ++
      ["python -u -m awflow.bin.processor " +:+
         abspath (dir +:+ "/" +:+ executable_name node) +:+ command_suffix node] ++
      generate_after node).
Proof.
  unfold array_directive, command_suffix.
  destruct (Z.ltb_spec 1 (tasks node)).
  - rewrite !decide_True by done. simpl. by rewrite <- !app_assoc.
  - rewrite !decide_False by lia. simpl. by rewrite <- !app_assoc.
Qed.

Lemma conda_stores f environment g :
  ∃ g' n, conda f environment g = (Ok f, g') ∧ find_node g' f = Some n ∧
          getitem n "conda" = Ok environment.
Proof.
  unfold conda. destruct (add_and_get_node_spec f g) as (g1 & E1 & R1 & _).
  unfold bind. rewrite E1.
  destruct (proj2 (R1 f) (or_intror eq_refl)) as [n Hn].
  eexists _, (setitem "conda" environment n). split; [done|]. split.
  - rewrite find_node_map by (intros m; by case_bool_decide).
    rewrite Hn. simpl. by rewrite bool_decide_eq_true_2 by by eapply find_node_identifier.
  - unfold getitem. simpl. by rewrite dict_get_set_eq.
Qed.

Lemma attribute_lines_by_key node keys lines :
  keys ⊆ (attributes node).*1 →
  attribute_lines node keys lines =
    Ok (lines ++
        map (λ key, "#SBATCH " +:+ key +:+ default "" (dict_get key (attributes node)))
            (filter (λ key, String.prefix "--" key = true) keys)).
Proof.
  revert lines. induction keys as [|k keys IH]; intros lines Hsub.
  - simpl. by rewrite app_nil_r.
  - assert (keys ⊆ (attributes node).*1) as Hsub'.
    { intros x Hx. apply Hsub. by right. }
    cbn [attribute_lines]. rewrite slice_is_prefix, filter_cons.
    destruct (String.prefix "--" k) eqn:Hp; cbn [negb].
    + assert (k ∈ (attributes node).*1) as Hk by (apply Hsub; by left).
      apply list_elem_of_fmap in Hk as ([k' v] & -> & Hin).
      destruct (dict_get_key _ _ _ Hin) as [v' Hv']. cbn [fst] in *.
      unfold getitem. rewrite Hv'. cbn [result_bind].
      rewrite IH by done. rewrite decide_True by done.
      cbn [map]. rewrite Hv'. cbn [default]. by rewrite <- app_assoc.
    + rewrite IH by done. by rewrite decide_False by (by intros ?).
Qed.

(** The lines computed for a node are those of [task_file]; the
    computation never raises. *)
Lemma task_file_lines_exact dir node : task_file_lines dir node = Ok (task_file dir node).
Proof.
  unfold task_file_lines.
  rewrite (attribute_lines_by_key node (map fst (attributes node))) by done.
  exact (task_file_tail dir node (([] ++ ["#!/usr/bin/env bash"]) ++ directive_lines node)).
Qed.

Lemma directive_lines_items node items :
  NoDup (attributes node).*1 → items ⊆ attributes node →
  map (λ key, "#SBATCH " +:+ key +:+ default "" (dict_get key (attributes node)))
      (filter (λ key, String.prefix "--" key = true) items.*1) =
  map (λ kv, "#SBATCH " +:+ kv.1 +:+ kv.2)
      (filter (λ kv, String.prefix "--" kv.1 = true) items).
Proof.
  intros Hnd. induction items as [|[k v] items IH]; intros Hsub; [done|].
  assert (items ⊆ attributes node) as Hsub'.
  { intros x Hx. apply Hsub. by right. }
  rewrite fmap_cons, !filter_cons. cbn [fst].
  destruct (decide (String.prefix "--" k = true)); [|by apply IH].
  cbn [map fst snd]. rewrite IH by done.
  by rewrite (dict_get_NoDup k v) by (auto; apply Hsub; by left).
Qed.

Lemma directive_lines_NoDup node :
  NoDup (attributes node).*1 → directive_lines node = sbatch_directives node.
Proof. intros Hnd. by apply directive_lines_items. Qed.

Lemma directive_lines_elem node line :
  line ∈ directive_lines node ↔
  ∃ key, key ∈ (attributes node).*1 ∧ String.prefix "--" key = true ∧
         line = "#SBATCH " +:+ key +:+ default "" (dict_get key (attributes node)).
Proof.
  unfold directive_lines. rewrite list_elem_of_fmap. split.
  - intros (key & -> & Hkey). apply list_elem_of_filter in Hkey as [Hp Hkey]. by exists key.
  - intros (key & Hkey & Hp & ->). exists key. split; [done|]. by apply list_elem_of_filter.
Qed.

Lemma directive_lines_prefixed node line :
  line ∈ directive_lines node → String.prefix "#SBATCH --" line = true.
Proof.
  intros (key & _ & Hp & ->)%directive_lines_elem.
  change "#SBATCH --" with ("#SBATCH " +:+ "--").
  assert (∀ a x y, String.prefix (a +:+ x) (a +:+ y) = String.prefix x y) as Hcancel.
  { induction a as [|c a IHa]; intros x y; [done|].
    change (String c a +:+ x) with (String c (a +:+ x)).
    change (String c a +:+ y) with (String c (a +:+ y)).
    by rewrite prefix_cons, Ascii.eqb_refl. }
  rewrite Hcancel. by apply prefix_append.
Qed.

Lemma write_lines_file_text lines : write_lines lines = file_text lines.
Proof.
  unfold file_text. induction lines as [|line lines IH]; [done|].
  cbn [write_lines map]. rewrite IH. destruct lines as [|line' lines].
  - cbn [map String.concat]. by rewrite append_empty_r.
  - cbn [map String.concat]. done.
Qed.

Lemma generate_task_files_loop_cons os dir node ns w :
  generate_task_files_loop os dir (node :: ns) w =
    match os_fails os (trace w) (task_file_event dir node) with
    | Some x => (Raise x, mkWorld (workflow w) (trace w ++ [task_file_event dir node]))
    | None =>
        generate_task_files_loop os dir ns
          (mkWorld (workflow w) (trace w ++ [task_file_event dir node]))
    end.
Proof.
  cbn [generate_task_files_loop]. unfold bind, lift, os_call.
  rewrite task_file_lines_exact, write_lines_file_text. fold (task_file_event dir node).
  by destruct (os_fails os (trace w) (task_file_event dir node)).
Qed.

(** The loop of [generate_task_files]: it writes the task files of the
    nodes in order and stops at the first file that cannot be written. *)
Lemma generate_task_files_loop_trace os dir ns w :
  ∃ k, k ≤ length ns ∧
    (generate_task_files_loop os dir ns w).2 =
      mkWorld (workflow w) (trace w ++ map (task_file_event dir) (take k ns)) ∧
    match (generate_task_files_loop os dir ns w).1 with
    | Ok _ => k = length ns
    | Raise e =>
        ∃ node, 0 < k ∧ ns !! (k - 1) = Some node ∧
                os_fails os (trace w ++ map (task_file_event dir) (take (k - 1) ns))
                         (task_file_event dir node) = Some e
    end.
Proof.
  revert w. induction ns as [|node ns IH]; intros w.
  - exists 0. simpl. rewrite app_nil_r. by destruct w.
  - rewrite generate_task_files_loop_cons.
    destruct (os_fails os (trace w) (task_file_event dir node)) as [x|] eqn:Hos.
    + exists 1. cbn [length take map fst snd]. rewrite take_0. split; [lia|].
      split; [done|]. exists node. cbn [map]. rewrite app_nil_r. split_and!; [lia|done|done].
    + destruct (IH (mkWorld (workflow w) (trace w ++ [task_file_event dir node])))
        as (k & Hk & Et & Hr).
      exists (S k). cbn [length]. split; [lia|]. cbn [workflow trace] in *.
      split.
      * rewrite Et. cbn [take map]. by rewrite <- app_assoc.
      * destruct (generate_task_files_loop os dir ns _).1 as [[]|e]; [lia|].
        destruct Hr as (node' & Hpos & Hnode & Hfails). exists node'.
        split; [lia|]. replace (S k - 1) with (S (k - 1)) by lia. split; [done|].
        cbn [take map]. by rewrite <- app_assoc in Hfails.
Qed.

Lemma generate_task_files_loop_reliable os dir ns w :
  (∀ t path content, os_fails os t (EvWriteFile path content) = None) →
  (generate_task_files_loop os dir ns w).1 = Ok tt.
Proof.
  intros Hos. destruct (generate_task_files_loop_trace os dir ns w) as (k & _ & _ & Hr).
  destruct (generate_task_files_loop os dir ns w).1 as [[]|e]; [done|].
  destruct Hr as (node & _ & _ & Hf). unfold task_file_event in Hf. by rewrite Hos in Hf.
Qed.

End TaskFileFacts.

Section TaskFileClaims.
Context `{Collaborators}.

(** C6, as the code has it.  [generate_task_files] writes the task files
    of the nodes in order, until one cannot be written.  The file of a node
    with [tasks > 1] holds, right after the directives of its attributes,
    the line [#SBATCH --array 0-(tasks-1)], and its processor command ends
    with the array-task-id suffix; for a node with [tasks <= 1] the code
    adds neither.  A line reading [#SBATCH --array 0-(tasks-1)] is therefore
    in the file exactly when [tasks > 1], unless an attribute of the node or
    a command of a plugin spells that very line. *)
Theorem C6_array_directive_added_for_array_tasks (os : OS) (dir : string) (w : World) :
  (∃ k, k ≤ length (nodes (workflow w)) ∧
        (generate_task_files_on os dir w).2 =
          mkWorld (workflow w)
                  (trace w ++ map (task_file_event dir) (take k (nodes (workflow w)))) ∧
        ((generate_task_files_on os dir w).1 = Ok tt → k = length (nodes (workflow w))) ∧
        ((∀ t e, os_fails os t e = None) → (generate_task_files_on os dir w).1 = Ok tt)) ∧
  ∀ node,
    let array_line := "#SBATCH --array 0-" +:+ pretty (tasks node - 1)%Z in
    let command :=
      "python -u -m awflow.bin.processor " +:+ abspath (dir +:+ "/" +:+ executable_name node) in
    task_file_event dir node =
      EvWriteFile (dir +:+ "/" +:+ node_task_filename node) (file_text (task_file dir node)) ∧
    ((1 < tasks node)%Z →
       task_file dir node =
         "#!/usr/bin/env bash" :: directive_lines node ++ [array_line] ++
         generate_before node ++ [command +:+ " $SLURM_ARRAY_TASK_ID"] ++
         generate_after node) ∧
    ((tasks node ≤ 1)%Z →
       task_file dir node =
         "#!/usr/bin/env bash" :: directive_lines node ++
         generate_before node ++ [command] ++ generate_after node) ∧
    (array_line ∉ directive_lines node → array_line ∉ generate_before node →
     array_line ∉ generate_after node →
     (array_line ∈ task_file dir node ↔ (1 < tasks node)%Z)).
Proof.
  split.
  - unfold generate_task_files_on.
    destruct (generate_task_files_loop_trace os dir (nodes (workflow w)) w)
      as (k & Hk & Et & Hr).
    exists k. split; [done|]. split; [done|]. split.
    + intros Hok. by rewrite Hok in Hr.
    + intros Hos. apply generate_task_files_loop_reliable. intros. apply Hos.
  - intros node array_line command. split; [done|].
    assert ((1 < tasks node)%Z →
            task_file dir node =
              "#!/usr/bin/env bash" :: directive_lines node ++ [array_line] ++
              generate_before node ++ [command +:+ " $SLURM_ARRAY_TASK_ID"] ++
              generate_after node) as Hgt.
    { intros Hgt. unfold task_file, array_directive, command_suffix.
      rewrite !decide_True by done. subst command. by rewrite !append_assoc. }
    assert ((tasks node ≤ 1)%Z →
            task_file dir node =
              "#!/usr/bin/env bash" :: directive_lines node ++
              generate_before node ++ [command] ++ generate_after node) as Hle.
    { intros Hle. unfold task_file, array_directive, command_suffix.
      rewrite !decide_False by lia. subst command.
      by rewrite append_empty_r. }
    split; [done|]. split; [done|].
    intros Hd Hb Ha. split.
    + intros Hin. destruct (decide (1 < tasks node)%Z) as [|Hn]; [done|].
      rewrite Hle in Hin by lia.
      rewrite elem_of_cons, !elem_of_app, list_elem_of_singleton in Hin.
      destruct Hin as [Heq|[?|[?|[Heq|?]]]]; done.
    + intros Hgt'. rewrite Hgt by done.
      rewrite elem_of_cons, !elem_of_app, list_elem_of_singleton. right. right. by left.
Qed.

(** C7.  Every task file that [generate_task_files] writes holds, right
    after the interpreter line, one line [#SBATCH <key><value>] for each
    attribute key of the node that begins with [--], in insertion order,
    and for no other key; on a node whose attribute mapping is a dictionary
    (no key twice) these are the lines of the attributes themselves.  An
    attribute under the key [conda], which the [conda] decorator stores on
    the node, gives no directive. *)
Theorem C7_directives_are_the_prefixed_attributes (os : OS) (dir : string) (w : World) :
  (∃ k, k ≤ length (nodes (workflow w)) ∧
        (generate_task_files_on os dir w).2 =
          mkWorld (workflow w)
                  (trace w ++ map (task_file_event dir) (take k (nodes (workflow w)))) ∧
        ((generate_task_files_on os dir w).1 = Ok tt → k = length (nodes (workflow w))) ∧
        ((∀ t e, os_fails os t e = None) → (generate_task_files_on os dir w).1 = Ok tt)) ∧
  (∀ node,
     task_file_event dir node =
       EvWriteFile (dir +:+ "/" +:+ node_task_filename node)
         (file_text
            ("#!/usr/bin/env bash" :: directive_lines node ++ array_directive node ++
             generate_before node ++
             ["python -u -m awflow.bin.processor " +:+
                abspath (dir +:+ "/" +:+ executable_name node) +:+ command_suffix node] ++
             generate_after node)) ∧
     (∀ line, line ∈ directive_lines node ↔
              ∃ key, key ∈ (attributes node).*1 ∧ String.prefix "--" key = true ∧
                     line = "#SBATCH " +:+ key +:+ default "" (dict_get key (attributes node))) ∧
     (NoDup (attributes node).*1 →
        directive_lines node = sbatch_directives node ∧
        ∀ line, line ∈ sbatch_directives node ↔
                ∃ k v, (k, v) ∈ attributes node ∧ String.prefix "--" k = true ∧
                       line = "#SBATCH " +:+ k +:+ v) ∧
     (∀ v, "#SBATCH conda" +:+ v ∉ directive_lines node)) ∧
  (∀ f environment g, ∃ g' n,
      conda f environment g = (Ok f, g') ∧ find_node g' f = Some n ∧
      getitem n "conda" = Ok environment).
Proof.
  split; [|split].
  - unfold generate_task_files_on.
    destruct (generate_task_files_loop_trace os dir (nodes (workflow w)) w)
      as (k & Hk & Et & Hr).
    exists k. split; [done|]. split; [done|]. split.
    + intros Hok. by rewrite Hok in Hr.
    + intros Hos. apply generate_task_files_loop_reliable. intros. apply Hos.
  - intros node. split; [done|]. split; [apply directive_lines_elem|]. split.
    + intros Hnd. split; [by apply directive_lines_NoDup|].
      intros line. unfold sbatch_directives. rewrite list_elem_of_fmap. split.
      * intros ([k v] & -> & Hkv). apply list_elem_of_filter in Hkv as [Hp Hkv].
        by exists k, v.
      * intros (k & v & Hkv & Hp & ->). exists (k, v). split; [done|].
        by apply list_elem_of_filter.
    + intros v Hv. apply directive_lines_prefixed in Hv.
      apply (f_equal (λ b : bool, b)) in Hv. by vm_compute in Hv.
  - intros f environment g. apply conda_stores.
Qed.

(** C9.  [add_default_attributes] rewrites every node of the workflow, and
    on each the five keys hold the default values whatever was stored under
    them before; the other keys and the other fields of the node are
    untouched. *)
Theorem C9_default_attributes_overwrite (dir : string) (w : World) :
  ∃ w', add_default_attributes dir w = (Ok tt, w') ∧
        trace w' = trace w ∧
        nodes (workflow w') = map (add_default_attributes_node dir) (nodes (workflow w)) ∧
        ∀ node, let node' := add_default_attributes_node dir node in
          getitem node' "--export=" = Ok "ALL" ∧
          getitem node' "--parsable" = Ok "" ∧
          getitem node' "--requeue" = Ok "" ∧
          getitem node' "--job-name=" = Ok (quote +:+ name node +:+ quote) ∧
          getitem node' "--output=" =
            Ok (quote +:+
                (dir +:+ "/logs/" +:+ name node +:+
                 (if decide (1 < tasks node)%Z then "-%A_%a.log" else "-%j.log")) +:+
                quote) ∧
          identifier node' = identifier node ∧ name node' = name node ∧
          tasks node' = tasks node ∧ dependencies node' = dependencies node ∧
          ∀ key, key ∉ ["--export="; "--parsable"; "--requeue"; "--job-name="; "--output="] →
                 dict_get key (attributes node') = dict_get key (attributes node).
Proof.
  eexists. split; [reflexivity|]. split; [reflexivity|]. split; [reflexivity|].
  intros node node'. subst node'. unfold add_default_attributes_node, getitem. simpl.
  repeat split.
  - by rewrite !dict_get_set_ne, dict_get_set_eq by discriminate.
  - by rewrite !dict_get_set_ne, dict_get_set_eq by discriminate.
  - by rewrite !dict_get_set_ne, dict_get_set_eq by discriminate.
  - by rewrite !dict_get_set_ne, dict_get_set_eq by discriminate.
  - rewrite dict_get_set_eq. f_equal.
    destruct (Z.ltb_spec 1 (tasks node)).
    + rewrite decide_True by done. by rewrite !append_assoc.
    + rewrite decide_False by lia. by rewrite !append_assoc.
  - intros key Hkey. rewrite !not_elem_of_cons in Hkey.
    destruct Hkey as (? & ? & ? & ? & ? & _).
    by rewrite !dict_get_set_ne by done.
Qed.

End TaskFileClaims.

(** C6 as the spec states it fails: a node that is not an array task, with
    an attribute that spells the array directive, gets the line
    [#SBATCH --array 0-(tasks-1)] in its task file. *)
Lemma C6_array_line_spelled_by_an_attribute :
  tasks example_spelled_array = 1%Z ∧
  "#SBATCH --array 0-" +:+ pretty (tasks example_spelled_array - 1)%Z = "#SBATCH --array 0-0" ∧
  @task_file_lines example_env "/run" example_spelled_array =
    Ok ["#!/usr/bin/env bash"; "#SBATCH --array 0-0";
        "python -u -m awflow.bin.processor /run/7.code"] ∧
  @generate_task_files example_env "/run" (mkWorld (mkDAWG [example_spelled_array]) []) =
    (Ok tt,
     mkWorld (mkDAWG [example_spelled_array])
       [EvWriteFile "/run/140007.sbatch"
          "#!/usr/bin/env bash
#SBATCH --array 0-0
python -u -m awflow.bin.processor /run/7.code
"]).
Proof. repeat split; vm_compute; reflexivity. Qed.

Lemma C6_array_directive_added_for_array_tasks_witness :
  let w := mkWorld example_graph [] in
  @generate_task_files_on example_env reliable "/run" w =
    (Ok tt,
     mkWorld example_graph
       [EvWriteFile "/run/140001.sbatch"
          "#!/usr/bin/env bash
python -u -m awflow.bin.processor /run/1.code
";
        EvWriteFile "/run/140002.sbatch"
          "#!/usr/bin/env bash
#SBATCH --mem=4G
python -u -m awflow.bin.processor /run/2.code
";
        EvWriteFile "/run/140003.sbatch"
          "#!/usr/bin/env bash
#SBATCH --export=NONE
#SBATCH --array 0-3
conda activate ml
python -u -m awflow.bin.processor /run/3.code $SLURM_ARRAY_TASK_ID
"]) ∧
  ∃ k, k ≤ length (nodes (workflow w)) ∧
       (@generate_task_files_on example_env reliable "/run" w).2 =
         mkWorld (workflow w)
           (trace w ++ map (@task_file_event example_env "/run") (take k (nodes (workflow w)))) ∧
       ((@generate_task_files_on example_env reliable "/run" w).1 = Ok tt →
        k = length (nodes (workflow w))) ∧
       ((∀ t e, os_fails reliable t e = None) →
        (@generate_task_files_on example_env reliable "/run" w).1 = Ok tt).
Proof.
  intros w. split; [vm_compute; reflexivity|].
  exact (proj1 (@C6_array_directive_added_for_array_tasks example_env reliable "/run" w)).
Defined.

Lemma C7_directives_are_the_prefixed_attributes_witness :
  let w := mkWorld example_graph [] in
  (@generate_task_files_on example_env example_os_no_directory "/run" w =
     (Raise (Exn (OtherError "FileNotFoundError") "/run/140001.sbatch"),
      mkWorld example_graph
        [EvWriteFile "/run/140001.sbatch"
           "#!/usr/bin/env bash
python -u -m awflow.bin.processor /run/1.code
"])) ∧
  (map (@task_file_event example_env "/run") (nodes example_graph) =
     [EvWriteFile "/run/140001.sbatch"
        "#!/usr/bin/env bash
python -u -m awflow.bin.processor /run/1.code
";
      EvWriteFile "/run/140002.sbatch"
        "#!/usr/bin/env bash
#SBATCH --mem=4G
python -u -m awflow.bin.processor /run/2.code
";
      EvWriteFile "/run/140003.sbatch"
        "#!/usr/bin/env bash
#SBATCH --export=NONE
#SBATCH --array 0-3
conda activate ml
python -u -m awflow.bin.processor /run/3.code $SLURM_ARRAY_TASK_ID
"]) ∧
  ∃ k, k ≤ length (nodes (workflow w)) ∧
       (@generate_task_files_on example_env example_os_no_directory "/run" w).2 =
         mkWorld (workflow w)
           (trace w ++ map (@task_file_event example_env "/run") (take k (nodes (workflow w)))) ∧
       ((@generate_task_files_on example_env example_os_no_directory "/run" w).1 = Ok tt →
        k = length (nodes (workflow w))) ∧
       ((∀ t e, os_fails example_os_no_directory t e = None) →
        (@generate_task_files_on example_env example_os_no_directory "/run" w).1 = Ok tt).
Proof.
  intros w. split; [vm_compute; reflexivity|]. split; [vm_compute; reflexivity|].
  exact (proj1 (@C7_directives_are_the_prefixed_attributes example_env
                  example_os_no_directory "/run" w)).
Defined.

(** ** The submission script *)

Section ScriptFacts.
Context `{Collaborators}.

Lemma dependency_flag_ok (tasks : gmap Callable nat) deps flag :
  (∀ d, d ∈ deps → is_Some (tasks !! d)) →
  ∃ s, dependency_flag tasks deps flag = Ok (flag +:+ s).
Proof.
  revert flag. induction deps as [|d deps IH]; intros flag Hall; simpl.
  - exists "". by rewrite append_empty_r.
  - destruct (Hall d) as [k Hk]; [by left|]. rewrite Hk.
    destruct (IH (flag +:+ ":$t" +:+ pretty k)) as [s Hs].
    { intros d' Hd'. apply Hall. by right. }
    rewrite Hs. exists ((":$t" +:+ pretty k) +:+ s). by rewrite !append_assoc.
Qed.

Lemma submission_step_ok dir st task_index task :
  (∀ d, d ∈ dependencies task →
        is_Some (<[identifier task := task_index]> (st_tasks st) !! d)) →
  ∃ flag,
    submission_step dir st task_index task =
      Ok (mkScript
            (st_lines st ++ ["t" +:+ pretty task_index +:+ "=$(sbatch " +:+ flag +:+
                             dir +:+ "/" +:+ node_task_filename task +:+ ")"])
            (st_job_identifiers st +:+ "$t" +:+ pretty task_index +:+ newline)
            (<[identifier task := task_index]> (st_tasks st))).
Proof.
  intros Hall. unfold submission_step.
  destruct (0 <? length (dependencies task))%nat.
  - destruct (dependency_flag_ok _ _ "--dependency=afterok" Hall) as [s ->].
    cbn [result_bind]. exists (("--dependency=afterok" +:+ s) +:+ " ").
    by rewrite !append_assoc.
  - cbn [result_bind]. exists "". by rewrite !append_assoc.
Qed.

Lemma submission_loop_snoc dir st n l task :
  submission_loop dir st n (l ++ [task]) =
    (st' <~ submission_loop dir st n l ;; submission_step dir st' (n + length l) task).
Proof.
  revert st n. induction l as [|t l IH]; intros st n; simpl.
  - rewrite Nat.add_0_r. by destruct (submission_step dir st n task).
  - destruct (submission_step dir st n t) as [st'|e]; simpl; [|done].
    rewrite IH. by rewrite Nat.add_succ_r.
Qed.

(** The state of the loop after [n] iterations on a topological program:
    one line per task so far, every task so far has an index, and every
    index in the dictionary is the position of a task so far. *)
Lemma submission_loop_prefix dir p n :
  topological p → n ≤ length p →
  ∃ st body,
    submission_loop dir (script_init dir) 0 (take n p) = Ok st ∧
    st_lines st = "#!/usr/bin/env bash" :: ("mkdir -p " +:+ dir +:+ "/logs") :: body ∧
    length body = n ∧
    (∀ i t, p !! i = Some t → i < n →
       ∃ flag, body !! i = Some ("t" +:+ pretty i +:+ "=$(sbatch " +:+ flag +:+
                                 dir +:+ "/" +:+ node_task_filename t +:+ ")")) ∧
    (∀ d k, st_tasks st !! d = Some k →
       k < n ∧ ∃ t', p !! k = Some t' ∧ identifier t' = d) ∧
    (∀ j t', p !! j = Some t' → j < n → is_Some (st_tasks st !! identifier t')).
Proof.
  intros Htopo. induction n as [|n IH]; intros Hn.
  - exists (script_init dir), []. rewrite take_0. simpl.
    split; [done|]. split; [done|]. split; [done|].
    split; [intros; lia|]. split; [|intros; lia].
    intros d k Hk. by rewrite lookup_empty in Hk.
  - destruct IH as (st & body & Eloop & Elines & Elen & Hbody & Hdom & Hall); [lia|].
    destruct (lookup_lt_is_Some_2 p n) as [t Ht]; [lia|].
    rewrite (take_S_r _ _ _ Ht), submission_loop_snoc, Eloop. cbn [result_bind].
    rewrite length_take, Nat.min_l by lia. simpl.
    destruct (submission_step_ok dir st n t) as [flag Estep].
    { intros d Hd. destruct (Htopo n t d Ht Hd) as (j & t' & Hj & Ht' & <-).
      destruct (decide (identifier t = identifier t')) as [->|Hne].
      - rewrite lookup_insert_eq. by eexists.
      - rewrite lookup_insert_ne by done. by eapply Hall. }
    rewrite Estep. eexists _, (body ++ [_]). split; [done|]. simpl.
    split; [by rewrite Elines|]. split; [rewrite length_app; simpl; lia|].
    split; [|split].
    + intros i t0 Ht0 Hi. destruct (decide (i = n)) as [->|Hne].
      * rewrite Ht in Ht0. injection Ht0 as <-. exists flag.
        rewrite lookup_app_r by lia. by rewrite Elen, Nat.sub_diag.
      * destruct (Hbody i t0 Ht0) as [fl Hfl]; [lia|]. exists fl.
        rewrite lookup_app_l by lia. done.
    + intros d k Hk. destruct (decide (identifier t = d)) as [<-|Hne].
      * rewrite lookup_insert_eq in Hk. injection Hk as <-. split; [lia|]. by exists t.
      * rewrite lookup_insert_ne in Hk by done.
        destruct (Hdom d k Hk) as [? ?]. split; [lia|done].
    + intros j t' Ht' Hj. destruct (decide (identifier t = identifier t')) as [->|Hne].
      * rewrite lookup_insert_eq. by eexists.
      * rewrite lookup_insert_ne by done. apply (Hall j t' Ht').
        destruct (decide (j = n)) as [->|?]; [|lia]. congruence.
Qed.

(** In a topological program of uniquely identified nodes no node lists
    itself as a dependency. *)
Lemma no_self_dependency p i t :
  topological p → unique_identifiers p →
  p !! i = Some t → identifier t ∉ dependencies t.
Proof.
  intros Htopo Huniq. revert t. induction i as [i IH] using lt_wf_ind.
  intros t Ht Hself.
  destruct (Htopo i t _ Ht Hself) as (j & t' & Hj & Ht' & Hid).
  assert (t' = t) as -> by (by apply (Huniq j i)).
  by apply (IH j Hj t).
Qed.

Lemma dependency_flag_exact (tasks : gmap Callable nat) deps flag indices :
  Forall2 (λ d k, tasks !! d = Some k) deps indices →
  dependency_flag tasks deps flag = Ok (flag +:+ job_references indices).
Proof.
  intros Hall. revert flag. induction Hall as [|d k deps indices Hk _ IH]; intros flag; simpl.
  - by rewrite append_empty_r.
  - rewrite Hk, IH. by rewrite !append_assoc.
Qed.

Lemma dependency_flag_missing (tasks : gmap Callable nat) found d rest flag :
  (∀ x, x ∈ found → is_Some (tasks !! x)) → tasks !! d = None →
  dependency_flag tasks (found ++ d :: rest) flag = Raise (Exn KeyError (pretty d)).
Proof.
  revert flag. induction found as [|x found IH]; intros flag Hfound Hd; simpl.
  - by rewrite Hd.
  - destruct (Hfound x) as [k ->]; [by left|]. apply IH; [|done].
    intros y Hy. apply Hfound. by right.
Qed.

Lemma submission_step_exact dir st task_index task indices :
  Forall2 (λ d k, <[identifier task := task_index]> (st_tasks st) !! d = Some k)
          (dependencies task) indices →
  submission_step dir st task_index task =
    Ok (mkScript
          (st_lines st ++ [sbatch_line dir task_index task indices])
          (st_job_identifiers st +:+ "$t" +:+ pretty task_index +:+ newline)
          (<[identifier task := task_index]> (st_tasks st))).
Proof.
  intros Hall. unfold submission_step, sbatch_line.
  rewrite (dependency_flag_exact _ _ _ _ Hall).
  destruct Hall as [|d k deps indices]; simpl.
  - by rewrite !append_assoc.
  - by rewrite !append_assoc.
Qed.

Lemma submission_loop_app dir st n l1 l2 :
  submission_loop dir st n (l1 ++ l2) =
    (st' <~ submission_loop dir st n l1 ;; submission_loop dir st' (n + length l1) l2).
Proof.
  revert st n. induction l1 as [|t l1 IH]; intros st n; simpl.
  - by rewrite Nat.add_0_r.
  - destruct (submission_step dir st n t) as [st'|e]; simpl; [|done].
    rewrite IH. by rewrite Nat.add_succ_r.
Qed.

(** The state of the loop after [n] iterations on a topological program,
    with every line spelled out. *)
Lemma submission_loop_prefix_exact dir p n :
  topological p → n ≤ length p →
  ∃ st body,
    submission_loop dir (script_init dir) 0 (take n p) = Ok st ∧
    st_lines st = "#!/usr/bin/env bash" :: ("mkdir -p " +:+ dir +:+ "/logs") :: body ∧
    length body = n ∧
    st_job_identifiers st = "echo " +:+ quote +:+ job_variables n ∧
    (∀ i task, p !! i = Some task → i < n →
       ∃ indices,
         Forall2 (λ d k, k ≤ i ∧ ∃ t', p !! k = Some t' ∧ identifier t' = d)
                 (dependencies task) indices ∧
         body !! i = Some (sbatch_line dir i task indices)) ∧
    (∀ d k, st_tasks st !! d = Some k →
       k < n ∧ ∃ t', p !! k = Some t' ∧ identifier t' = d) ∧
    (∀ j t', p !! j = Some t' → j < n → is_Some (st_tasks st !! identifier t')).
Proof.
  intros Htopo. induction n as [|n IH]; intros Hn.
  - exists (script_init dir), []. rewrite take_0. simpl.
    split; [done|]. split; [done|]. split; [done|]. split; [by rewrite append_empty_r|].
    split; [intros; lia|]. split; [|intros; lia].
    intros d k Hk. by rewrite lookup_empty in Hk.
  - destruct IH as (st & body & Eloop & Elines & Elen & Ejobs & Hbody & Hdom & Hall); [lia|].
    destruct (lookup_lt_is_Some_2 p n) as [t Ht]; [lia|].
    rewrite (take_S_r _ _ _ Ht), submission_loop_snoc, Eloop. cbn [result_bind].
    rewrite length_take, Nat.min_l by lia. simpl.
    assert (∃ indices,
              Forall2 (λ d k, <[identifier t := n]> (st_tasks st) !! d = Some k ∧
                              k ≤ n ∧ ∃ t', p !! k = Some t' ∧ identifier t' = d)
                      (dependencies t) indices) as [indices Hindices].
    { assert (∀ d, d ∈ dependencies t →
                ∃ k, <[identifier t := n]> (st_tasks st) !! d = Some k ∧
                     k ≤ n ∧ ∃ t', p !! k = Some t' ∧ identifier t' = d) as Hdeps.
      { intros d Hd. destruct (Htopo n t d Ht Hd) as (j & t' & Hj & Ht' & <-).
        destruct (decide (identifier t = identifier t')) as [Heq|Hne].
        - exists n. rewrite <- Heq, lookup_insert_eq. split; [done|]. split; [lia|]. by exists t.
        - rewrite lookup_insert_ne by done.
          destruct (Hall j t' Ht' Hj) as [k Hk]. exists k. split; [done|].
          destruct (Hdom _ _ Hk) as [? ?]. split; [lia|done]. }
      clear -Hdeps. induction (dependencies t) as [|d ds IHd].
      - by exists [].
      - destruct (Hdeps d) as [k Hk]; [by left|].
        destruct IHd as [ks Hks]; [intros; apply Hdeps; by right|].
        exists (k :: ks). by constructor. }
    rewrite (submission_step_exact dir st n t indices).
    2:{ eapply Forall2_impl; [exact Hindices|]. by intros d k [? _]. }
    eexists _, (body ++ [_]). split; [done|]. simpl.
    split; [by rewrite Elines|]. split; [rewrite length_app; simpl; lia|].
    split; [by rewrite Ejobs, !append_assoc|].
    split; [|split].
    + intros i t0 Ht0 Hi. destruct (decide (i = n)) as [->|Hne].
      * rewrite Ht in Ht0. injection Ht0 as <-. exists indices. split.
        -- eapply Forall2_impl; [exact Hindices|]. by intros d k [_ ?].
        -- rewrite lookup_app_r by lia. by rewrite Elen, Nat.sub_diag.
      * destruct (Hbody i t0 Ht0) as (ks & Hks & Hline); [lia|]. exists ks.
        split; [done|]. rewrite lookup_app_l by lia. done.
    + intros d k Hk. destruct (decide (identifier t = d)) as [<-|Hne].
      * rewrite lookup_insert_eq in Hk. injection Hk as <-. split; [lia|]. by exists t.
      * rewrite lookup_insert_ne in Hk by done.
        destruct (Hdom d k Hk) as [? ?]. split; [lia|done].
    + intros j t' Ht' Hj. destruct (decide (identifier t = identifier t')) as [->|Hne].
      * rewrite lookup_insert_eq. by eexists.
      * rewrite lookup_insert_ne by done. apply (Hall j t' Ht').
        destruct (decide (j = n)) as [->|?]; [|lia]. congruence.
Qed.

Lemma dependency_flag_inv (tasks : gmap Callable nat) deps flag s :
  dependency_flag tasks deps flag = Ok s →
  ∃ indices, Forall2 (λ d k, tasks !! d = Some k) deps indices.
Proof.
  revert flag. induction deps as [|d deps IH]; intros flag Hs; simpl in Hs.
  - by exists [].
  - destruct (tasks !! d) as [k|] eqn:Hk; [|done].
    destruct (IH _ Hs) as [ks Hks]. exists (k :: ks). by constructor.
Qed.

Lemma submission_step_inv dir st task_index task st' :
  submission_step dir st task_index task = Ok st' →
  ∃ indices,
    Forall2 (λ d k, <[identifier task := task_index]> (st_tasks st) !! d = Some k)
            (dependencies task) indices ∧
    st' = mkScript
            (st_lines st ++ [sbatch_line dir task_index task indices])
            (st_job_identifiers st +:+ "$t" +:+ pretty task_index +:+ newline)
            (<[identifier task := task_index]> (st_tasks st)).
Proof.
  intros Hstep.
  assert (∃ indices,
            Forall2 (λ d k, <[identifier task := task_index]> (st_tasks st) !! d = Some k)
                    (dependencies task) indices) as [indices Hindices].
  { unfold submission_step in Hstep.
    destruct (dependency_flag (<[identifier task := task_index]> (st_tasks st))
                (dependencies task) "--dependency=afterok") as [s|e] eqn:Eflag.
    - by apply dependency_flag_inv in Eflag.
    - destruct (dependencies task) as [|d ds]; [by exists []|]. by simpl in Hstep. }
  exists indices. split; [done|].
  rewrite (submission_step_exact dir st task_index task indices Hindices) in Hstep.
  by injection Hstep as <-.
Qed.

(** The state of the loop after [n] iterations that returned, whatever the
    program: one line per task so far, and the index a dependency was found
    under is the last position so far that holds it, the position of the
    task itself included. *)
Lemma submission_loop_prefix_inv dir p n st :
  n ≤ length p →
  submission_loop dir (script_init dir) 0 (take n p) = Ok st →
  ∃ body,
    st_lines st = "#!/usr/bin/env bash" :: ("mkdir -p " +:+ dir +:+ "/logs") :: body ∧
    length body = n ∧
    st_job_identifiers st = "echo " +:+ quote +:+ job_variables n ∧
    (∀ i task, p !! i = Some task → i < n →
       ∃ indices,
         Forall2 (λ d k, k ≤ i ∧ (∃ t', p !! k = Some t' ∧ identifier t' = d) ∧
                         ∀ k' t'', k < k' ≤ i → p !! k' = Some t'' → identifier t'' ≠ d)
                 (dependencies task) indices ∧
         body !! i = Some (sbatch_line dir i task indices)) ∧
    (∀ d k, st_tasks st !! d = Some k →
       k < n ∧ (∃ t', p !! k = Some t' ∧ identifier t' = d) ∧
       ∀ k' t'', k < k' < n → p !! k' = Some t'' → identifier t'' ≠ d).
Proof.
  revert st. induction n as [|n IH]; intros st Hn Hloop.
  - rewrite take_0 in Hloop. simpl in Hloop. injection Hloop as <-. exists []. simpl.
    split; [done|]. split; [done|]. split; [by rewrite append_empty_r|].
    split; [intros; lia|].
    intros d k Hk. by rewrite lookup_empty in Hk.
  - destruct (lookup_lt_is_Some_2 p n) as [t Ht]; [lia|].
    rewrite (take_S_r _ _ _ Ht), submission_loop_snoc in Hloop.
    destruct (submission_loop dir (script_init dir) 0 (take n p)) as [st1|e] eqn:Eloop;
      [|done].
    cbn [result_bind] in Hloop. rewrite length_take, Nat.min_l in Hloop by lia.
    simpl in Hloop.
    destruct (IH st1) as (body & Elines & Elen & Ejobs & Hbody & Hdom); [lia|done|].
    destruct (submission_step_inv _ _ _ _ _ Hloop) as (indices & Hindices & ->).
    assert (∀ d k, <[identifier t := n]> (st_tasks st1) !! d = Some k →
              k ≤ n ∧ (∃ t', p !! k = Some t' ∧ identifier t' = d) ∧
              ∀ k' t'', k < k' ≤ n → p !! k' = Some t'' → identifier t'' ≠ d) as Hnew.
    { intros d k Hk. destruct (decide (identifier t = d)) as [<-|Hne].
      - rewrite lookup_insert_eq in Hk. injection Hk as <-.
        split; [lia|]. split; [by exists t|]. intros; lia.
      - rewrite lookup_insert_ne in Hk by done.
        destruct (Hdom d k Hk) as (Hlt & Hat & Hlast).
        split; [lia|]. split; [done|].
        intros k' t'' Hk' Ht''. destruct (decide (k' = n)) as [->|?].
        + rewrite Ht in Ht''. by injection Ht'' as <-.
        + apply (Hlast k' t''); [lia|done]. }
    exists (body ++ [sbatch_line dir n t indices]). simpl.
    split; [by rewrite Elines|]. split; [rewrite length_app; simpl; lia|].
    split; [by rewrite Ejobs, !append_assoc|].
    split.
    + intros i t0 Ht0 Hi. destruct (decide (i = n)) as [->|Hne].
      * rewrite Ht in Ht0. injection Ht0 as <-. exists indices. split.
        -- eapply Forall2_impl; [exact Hindices|]. intros d k Hk. by apply Hnew.
        -- rewrite lookup_app_r by lia. by rewrite Elen, Nat.sub_diag.
      * destruct (Hbody i t0 Ht0) as (ks & Hks & Hline); [lia|]. exists ks.
        split; [done|]. rewrite lookup_app_l by lia. done.
    + intros d k Hk. destruct (Hnew d k Hk) as (Hle & Hat & Hlast).
      split; [lia|]. split; [done|]. intros k' t'' Hk'. apply Hlast. lia.
Qed.

Lemma generate_submission_script_on_run os dir w p st :
  program (workflow w) = Ok p →
  submission_loop dir (script_init dir) 0 p = Ok st →
  generate_submission_script_on os dir w =
    os_call os
      (EvWriteFile (dir +:+ "/pipeline")
         (write_lines (st_lines st) +:+
          st_job_identifiers st +:+ quote +:+ " > " +:+ dir +:+ "/job_identifiers"))
      (mkWorld (workflow w) (trace w ++ [EvProgram])).
Proof.
  intros Hp Hst. unfold generate_submission_script_on, call_program, bind, lift.
  rewrite Hp. simpl. by rewrite Hst.
Qed.

Lemma generate_submission_script_on_raise os dir w p e :
  program (workflow w) = Ok p →
  submission_loop dir (script_init dir) 0 p = Raise e →
  generate_submission_script_on os dir w =
    (Raise e, mkWorld (workflow w) (trace w ++ [EvProgram])).
Proof.
  intros Hp Hst. unfold generate_submission_script_on, call_program, bind, lift.
  rewrite Hp. simpl. by rewrite Hst.
Qed.

Lemma generate_submission_script_run dir w p st :
  program (workflow w) = Ok p →
  submission_loop dir (script_init dir) 0 p = Ok st →
  generate_submission_script dir w =
    (Ok tt,
     mkWorld (workflow w)
       (trace w ++
        [EvProgram;
         EvWriteFile (dir +:+ "/pipeline")
           (write_lines (st_lines st) +:+
            st_job_identifiers st +:+ quote +:+ " > " +:+ dir +:+ "/job_identifiers")])).
Proof.
  intros Hp Hst.
  unfold generate_submission_script, generate_submission_script_on, call_program, bind,
    lift, os_call.
  rewrite Hp. simpl. rewrite Hst. simpl. by rewrite <- app_assoc.
Qed.

(** The task files, then the submission script. *)
Lemma task_files_then_script (os : OS) (dir : string) (w : World) (p : list Node) :
  program (workflow w) = Ok p →
  let run := (generate_task_files_on os dir ;;; generate_submission_script_on os dir) w in
  (run.1 = Ok tt →
   ∃ body,
     run.2 =
       mkWorld (workflow w)
         (trace w ++
          map (λ node, EvWriteFile (dir +:+ "/" +:+ node_task_filename node)
                                   (file_text (task_file dir node)))
              (nodes (workflow w)) ++
          [EvProgram;
           EvWriteFile (dir +:+ "/pipeline")
             (file_text ("#!/usr/bin/env bash" :: ("mkdir -p " +:+ dir +:+ "/logs") :: body)
              +:+ ("echo " +:+ quote +:+ job_variables (length p)) +:+
                  quote +:+ " > " +:+ dir +:+ "/job_identifiers")]) ∧
     length body = length p ∧
     ∀ i task, p !! i = Some task →
       ∃ indices,
         Forall2 (λ d k, k ≤ i ∧ (∃ t', p !! k = Some t' ∧ identifier t' = d) ∧
                         ∀ k' t'', k < k' ≤ i → p !! k' = Some t'' → identifier t'' ≠ d)
                 (dependencies task) indices ∧
         body !! i =
           Some ("t" +:+ pretty i +:+ "=$(sbatch " +:+
                 match indices with
                 | [] => ""
                 | _ => "--dependency=afterok" +:+ job_references indices +:+ " "
                 end +:+
                 dir +:+ "/" +:+ node_task_filename task +:+ ")")) ∧
  (topological p → (∀ t path content, os_fails os t (EvWriteFile path content) = None) →
   run.1 = Ok tt).
Proof.
  intros Hp run.
  pose proof (generate_task_files_loop_trace os dir (nodes (workflow w)) w)
    as (k & Hk & Et & Hr).
  assert (run = match generate_task_files_loop os dir (nodes (workflow w)) w with
                | (Ok _, w1) => generate_submission_script_on os dir w1
                | (Raise e, w1) => (Raise e, w1)
                end) as Erun by done.
  destruct (generate_task_files_loop os dir (nodes (workflow w)) w) as [[[]|e1] w1] eqn:Efiles;
    simpl in Et, Hr.
  - subst k w1. rewrite firstn_all in Erun.
    set (w1 := mkWorld (workflow w)
                 (trace w ++ map (task_file_event dir) (nodes (workflow w)))) in *.
    destruct (submission_loop dir (script_init dir) 0 p) as [st|e] eqn:Eloop.
    + rewrite (generate_submission_script_on_run os dir w1 p st Hp Eloop) in Erun.
      destruct (submission_loop_prefix_inv dir p (length p) st)
        as (body & Elines & Elen & Ejobs & Hbody & _); [done|by rewrite firstn_all|].
      split.
      * intros _. exists body. split; [|split; [done|]].
        -- rewrite Erun. unfold os_call, w1, task_file_event. simpl.
           rewrite write_lines_file_text, Elines, Ejobs, <- !app_assoc.
           by destruct (os_fails os _ _).
        -- intros i task Hi. apply (Hbody i task Hi). by apply lookup_lt_Some in Hi.
      * intros _ Hos. rewrite Erun. unfold os_call. by rewrite Hos.
    + rewrite (generate_submission_script_on_raise os dir w1 p e Hp Eloop) in Erun.
      split; [by rewrite Erun|].
      intros Htopo _.
      destruct (submission_loop_prefix dir p (length p) Htopo) as (st & _ & Est & _); [done|].
      rewrite firstn_all in Est. congruence.
  - split; [by rewrite Erun|].
    intros _ Hos. destruct Hr as (node & _ & _ & Hf). unfold task_file_event in Hf. by rewrite Hos in Hf.
Qed.

End ScriptFacts.

Section ScriptClaims.
Context `{Collaborators}.


(** C10.  [prepare_submission] writes the task files and then the
    submission script.  When both calls return, the task file of every node
    of the workflow was written under [dir/node_task_filename(node)], in
    order, and the submission script holds, after its two header lines,
    exactly one line per task of [workflow.program()], in program order:
    the line of the task at position [i] is
    [t<i>=$(sbatch <flag>dir/node_task_filename(task))], its flag naming,
    for each dependency, the last position up to [i] that holds it.  So the
    file a line submits is named by [node_task_filename] on the task, as the
    file written for that node is.  On a topological program, when the files
    can be written, both calls return. *)
Theorem C10_one_sbatch_line_per_task (os : OS) (dir : string) (w : World) (p : list Node) :
  program (workflow w) = Ok p →
  let run := (generate_task_files_on os dir ;;; generate_submission_script_on os dir) w in
  (run.1 = Ok tt →
   ∃ body,
     run.2 =
       mkWorld (workflow w)
         (trace w ++
          map (λ node, EvWriteFile (dir +:+ "/" +:+ node_task_filename node)
                                   (file_text (task_file dir node)))
              (nodes (workflow w)) ++
          [EvProgram;
           EvWriteFile (dir +:+ "/pipeline")
             (file_text ("#!/usr/bin/env bash" :: ("mkdir -p " +:+ dir +:+ "/logs") :: body)
              +:+ ("echo " +:+ quote +:+ job_variables (length p)) +:+
                  quote +:+ " > " +:+ dir +:+ "/job_identifiers")]) ∧
     length body = length p ∧
     ∀ i task, p !! i = Some task →
       ∃ indices,
         Forall2 (λ d k, k ≤ i ∧ (∃ t', p !! k = Some t' ∧ identifier t' = d) ∧
                         ∀ k' t'', k < k' ≤ i → p !! k' = Some t'' → identifier t'' ≠ d)
                 (dependencies task) indices ∧
         body !! i =
           Some ("t" +:+ pretty i +:+ "=$(sbatch " +:+
                 match indices with
                 | [] => ""
                 | _ => "--dependency=afterok" +:+ job_references indices +:+ " "
                 end +:+
                 dir +:+ "/" +:+ node_task_filename task +:+ ")")) ∧
  (topological p → (∀ t path content, os_fails os t (EvWriteFile path content) = None) →
   run.1 = Ok tt).
Proof. exact (task_files_then_script os dir w p). Qed.

End ScriptClaims.

Lemma example_graph_topological : topological (nodes example_graph).
Proof.
  intros i t d Hi Hd. destruct i as [|[|[|i]]]; simpl in Hi; [| | |done];
    injection Hi as <-; simpl in Hd.
  - by apply elem_of_nil in Hd.
  - apply list_elem_of_singleton in Hd as ->. exists 0, (mkNode 1%positive "prepare" 1 [] []).
    split; [lia|done].
  - apply elem_of_cons in Hd as [->|Hd].
    + exists 0, (mkNode 1%positive "prepare" 1 [] []). split; [lia|done].
    + apply list_elem_of_singleton in Hd as ->.
      exists 1, (mkNode 2%positive "train" 1 [("--mem=", "4G")] [1%positive]).
      split; [lia|done].
Qed.

Lemma example_graph_unique_identifiers : unique_identifiers (nodes example_graph).
Proof.
  intros i j t t' Hi Hj.
  destruct i as [|[|[|i]]]; simpl in Hi; [| | |done]; injection Hi as <-;
    destruct j as [|[|[|j]]]; simpl in Hj; try done; injection Hj as <-;
    simpl; intros Heq; done.
Qed.


Lemma C10_one_sbatch_line_per_task_witness :
  let w := mkWorld example_graph [] in
  @program example_env (workflow w) = Ok (nodes example_graph) ∧
  (@generate_task_files_on example_env reliable "/run" ;;;
   @generate_submission_script_on example_env reliable "/run") w =
    (Ok tt,
     mkWorld example_graph
       [EvWriteFile "/run/140001.sbatch"
          "#!/usr/bin/env bash
python -u -m awflow.bin.processor /run/1.code
";
        EvWriteFile "/run/140002.sbatch"
          "#!/usr/bin/env bash
#SBATCH --mem=4G
python -u -m awflow.bin.processor /run/2.code
";
        EvWriteFile "/run/140003.sbatch"
          "#!/usr/bin/env bash
#SBATCH --export=NONE
#SBATCH --array 0-3
conda activate ml
python -u -m awflow.bin.processor /run/3.code $SLURM_ARRAY_TASK_ID
";
        EvProgram;
        EvWriteFile "/run/pipeline"
          ("#!/usr/bin/env bash
mkdir -p /run/logs
t0=$(sbatch /run/140001.sbatch)
t1=$(sbatch --dependency=afterok:$t0 /run/140002.sbatch)
t2=$(sbatch --dependency=afterok:$t0:$t1 /run/140003.sbatch)
echo " +:+ quote +:+ "$t0
$t1
$t2
" +:+ quote +:+ " > /run/job_identifiers")]) ∧
  let run := (@generate_task_files_on example_env reliable "/run" ;;;
              @generate_submission_script_on example_env reliable "/run") w in
  (run.1 = Ok tt →
   ∃ body,
     run.2 =
       mkWorld (workflow w)
         (trace w ++
          map (λ node, EvWriteFile ("/run" +:+ "/" +:+ @node_task_filename example_env node)
                                   (file_text (@task_file example_env "/run" node)))
              (nodes (workflow w)) ++
          [EvProgram;
           EvWriteFile ("/run" +:+ "/pipeline")
             (file_text ("#!/usr/bin/env bash" :: ("mkdir -p " +:+ "/run" +:+ "/logs") :: body)
              +:+ ("echo " +:+ quote +:+ job_variables (length (nodes example_graph))) +:+
                  quote +:+ " > " +:+ "/run" +:+ "/job_identifiers")]) ∧
     length body = length (nodes example_graph) ∧
     ∀ i task, nodes example_graph !! i = Some task →
       ∃ indices,
         Forall2 (λ d k, k ≤ i ∧
                         (∃ t', nodes example_graph !! k = Some t' ∧ identifier t' = d) ∧
                         ∀ k' t'', k < k' ≤ i → nodes example_graph !! k' = Some t'' →
                                   identifier t'' ≠ d)
                 (dependencies task) indices ∧
         body !! i =
           Some ("t" +:+ pretty i +:+ "=$(sbatch " +:+
                 match indices with
                 | [] => ""
                 | _ => "--dependency=afterok" +:+ job_references indices +:+ " "
                 end +:+
                 "/run" +:+ "/" +:+ @node_task_filename example_env task +:+ ")")) ∧
  (topological (nodes example_graph) →
   (∀ t path content, os_fails reliable t (EvWriteFile path content) = None) →
   run.1 = Ok tt).
Proof.
  intros w. split; [reflexivity|]. split; [vm_compute; reflexivity|].
  exact (@C10_one_sbatch_line_per_task example_env reliable "/run" w (nodes example_graph)
           eq_refl).
Defined.

(** ** The run *)

Section TraceFacts.
Context `{Collaborators}.
Context (P : Event → Prop).

Lemma emits_raise {A} e : emits P (raise (A:=A) e).
Proof. intros w. exists []. by rewrite app_nil_r. Qed.

Lemma emits_lift {A} (r : result A) : emits P (lift r).
Proof. intros w. exists []. by rewrite app_nil_r. Qed.

Lemma emits_os_call os e : P e → emits P (os_call os e).
Proof.
  intros He w. exists [e]. unfold os_call.
  destruct (os_fails os (trace w) e); (split; [done|]); by constructor.
Qed.

Lemma emits_call e op : P e → emits P (call e op).
Proof.
  intros He w. exists [e]. unfold call.
  destruct (op (workflow w)); (split; [done|]); by constructor.
Qed.

Lemma emits_bind {A B} (m : M World A) (k : A → M World B) :
  emits P m → (∀ a, emits P (k a)) → emits P (bind m k).
Proof.
  intros Hm Hk w. unfold bind. destruct (Hm w) as (l1 & E1 & F1).
  destruct (m w) as [[a|e] w1]; simpl in *.
  - destruct (Hk a w1) as (l2 & E2 & F2). exists (l1 ++ l2).
    rewrite E2, E1, app_assoc. split; [done|]. by apply Forall_app.
  - by exists l1.
Qed.

Lemma emits_try_except {A} (m : M World A) (h : exn → M World A) :
  emits P m → (∀ e, emits P (h e)) → emits P (try_except m h).
Proof.
  intros Hm Hh w. unfold try_except. destruct (Hm w) as (l1 & E1 & F1).
  destruct (m w) as [[a|e] w1]; simpl in *.
  - by exists l1.
  - destruct (is_Exception e); [|by exists l1].
    destruct (Hh e w1) as (l2 & E2 & F2). exists (l1 ++ l2).
    rewrite E2, E1, app_assoc. split; [done|]. by apply Forall_app.
Qed.

Lemma emits_call_program : P EvProgram → emits P call_program.
Proof. intros He w. exists [EvProgram]. split; [done|]. by constructor. Qed.

Lemma emits_generate_task_files os dir :
  (∀ path content, P (EvWriteFile path content)) → emits P (generate_task_files_on os dir).
Proof.
  intros HP w. unfold generate_task_files_on.
  destruct (generate_task_files_loop_trace os dir (nodes (workflow w)) w) as (k & _ & -> & _).
  eexists. split; [done|]. apply Forall_fmap, Forall_forall. intros node _. apply HP.
Qed.

Lemma emits_prepare_submission os dir :
  P EvProgram → (∀ path content, P (EvWriteFile path content)) →
  emits P (prepare_submission_on os dir).
Proof.
  intros HPp HPw. unfold prepare_submission_on, generate_submission_script_on.
  apply emits_bind.
  { intros w. exists []. by rewrite app_nil_r. }
  intros _. apply emits_bind; [by apply emits_generate_task_files|].
  intros _. apply emits_bind; [by apply emits_call_program|].
  intros tasks. apply emits_bind; [apply emits_lift|].
  intros st. by apply emits_os_call.
Qed.

Lemma emits_submit os dir :
  (∀ c, P (EvSystem c)) → (∀ s, P (EvPrint s)) → emits P (submit_on os dir).
Proof.
  intros HPs HPp. unfold submit_on. apply emits_bind.
  { intros w. eexists [_]. split; [done|]. by constructor. }
  intros rc. destruct (negb (rc =? 0)%Z); [apply emits_raise | by apply emits_os_call].
Qed.

End TraceFacts.

Section RunFacts.
Context `{Collaborators}.

(** What [submit] does: it runs the pipeline, raises when [os.system]
    raises or answers a non-zero return code, and otherwise prints where
    the log files are. *)
Lemma submit_on_cases os dir w :
  submit_on os dir w =
    match os_system ("bash " +:+ dir +:+ "/pipeline") with
    | Ok rc =>
        if (rc =? 0)%Z
        then os_call os
               (EvPrint ("Pipeline submitted. Logfiles are stored at `" +:+
                         (dir +:+ "/logs") +:+ "`"))
               (mkWorld (workflow w) (trace w ++ [EvSystem ("bash " +:+ dir +:+ "/pipeline")]))
        else (Raise (Exn Exception "Failed to submit pipeline."),
              mkWorld (workflow w) (trace w ++ [EvSystem ("bash " +:+ dir +:+ "/pipeline")]))
    | Raise e =>
        (Raise e, mkWorld (workflow w) (trace w ++ [EvSystem ("bash " +:+ dir +:+ "/pipeline")]))
    end.
Proof.
  unfold submit_on, bind, raise.
  destruct (os_system ("bash " +:+ dir +:+ "/pipeline")) as [rc|e]; [|done].
  by destruct (rc =? 0)%Z.
Qed.

Lemma submit_cases dir w :
  submit dir w =
    match os_system ("bash " +:+ dir +:+ "/pipeline") with
    | Ok rc =>
        if (rc =? 0)%Z
        then (Ok tt,
              mkWorld (workflow w)
                (trace w ++
                 [EvSystem ("bash " +:+ dir +:+ "/pipeline");
                  EvPrint ("Pipeline submitted. Logfiles are stored at `" +:+
                           (dir +:+ "/logs") +:+ "`")]))
        else (Raise (Exn Exception "Failed to submit pipeline."),
              mkWorld (workflow w) (trace w ++ [EvSystem ("bash " +:+ dir +:+ "/pipeline")]))
    | Raise e =>
        (Raise e, mkWorld (workflow w) (trace w ++ [EvSystem ("bash " +:+ dir +:+ "/pipeline")]))
    end.
Proof.
  unfold submit. rewrite submit_on_cases.
  destruct (os_system ("bash " +:+ dir +:+ "/pipeline")) as [rc|e]; [|done].
  destruct (rc =? 0)%Z; [|done]. unfold os_call. simpl. by rewrite <- app_assoc.
Qed.

(** The part of [execute] that follows [workflow.prune()]. *)
Lemma execute_after_pruning os directory :
  emits after_pruning
    (λ w,
       if (0 <? length (nodes (workflow w)))%nat
       then (call (EvGenerateExecutables directory) (λ wf, generate_executables wf directory) ;;;
             call (EvGenerateMetadata directory) (λ wf, generate_metadata wf directory) ;;;
             prepare_submission_on os directory ;;;
             try_except (submit_on os directory)
                        (λ e, os_call os (EvPrint (exn_str e)) ;;;
                              os_call os (EvRmtree directory))) w
       else os_call os (EvRmtree directory) w).
Proof.
  intros w. destruct (0 <? length (nodes (workflow w))).
  - revert w. apply emits_bind; [by apply emits_call|].
    intros _. apply emits_bind; [by apply emits_call|].
    intros _. apply emits_bind; [by apply emits_prepare_submission|].
    intros _. apply emits_try_except; [by apply emits_submit|].
    intros e. apply emits_bind; [by apply emits_os_call|]. intros _. by apply emits_os_call.
  - revert w. by apply emits_os_call.
Qed.

Lemma bind_os_call_ok {A} os e (k : unit → M World A) w :
  os_fails os (trace w) e = None →
  bind (os_call os e) k w = k tt (mkWorld (workflow w) (trace w ++ [e])).
Proof. intros Hos. unfold bind, os_call. by rewrite Hos. Qed.

Lemma bind_os_call_raise {A} os e (k : unit → M World A) w x :
  os_fails os (trace w) e = Some x →
  bind (os_call os e) k w = (Raise x, mkWorld (workflow w) (trace w ++ [e])).
Proof. intros Hos. unfold bind, os_call. by rewrite Hos. Qed.

Lemma bind_call_ok {A} e op (k : unit → M World A) w wf' :
  op (workflow w) = Ok wf' →
  bind (call e op) k w = k tt (mkWorld wf' (trace w ++ [e])).
Proof. intros Hop. unfold bind, call. by rewrite Hop. Qed.

Lemma bind_call_raise {A} e op (k : unit → M World A) w x :
  op (workflow w) = Raise x →
  bind (call e op) k w = (Raise x, mkWorld (workflow w) (trace w ++ [e])).
Proof. intros Hop. unfold bind, call. by rewrite Hop. Qed.

Lemma bind_call_program_ok {A} (k : list Node → M World A) w p :
  program (workflow w) = Ok p →
  bind call_program k w = k p (mkWorld (workflow w) (trace w ++ [EvProgram])).
Proof. intros Hp. unfold bind, call_program. by rewrite Hp. Qed.

Lemma bind_call_program_raise {A} (k : list Node → M World A) w x :
  program (workflow w) = Raise x →
  bind call_program k w = (Raise x, mkWorld (workflow w) (trace w ++ [EvProgram])).
Proof. intros Hp. unfold bind, call_program. by rewrite Hp. Qed.

(** Every run of [execute] goes through its six opening calls in order,
    stops at the first that raises, and only then does the rest. *)
Lemma execute_trace_shape os dir kwargs w :
  ∃ k late,
    trace (execute_on os dir kwargs w).2 =
      trace w ++
      take k [EvMakedirs dir; EvMkdtemp dir; EvProgram; EvApplyDefaults;
              EvGeneratePostconditions (abspath (mkdtemp dir)); EvPrune] ++ late ∧
    Forall after_pruning late.
Proof.
  unfold execute_on.
  destruct (os_fails os (trace w) (EvMakedirs dir)) as [e|] eqn:O1.
  { rewrite (bind_os_call_raise _ _ _ _ e) by done. exists 1, []. done. }
  rewrite bind_os_call_ok by done.
  destruct (os_fails os (trace w ++ [EvMakedirs dir]) (EvMkdtemp dir)) as [e|] eqn:O2.
  { rewrite (bind_os_call_raise _ _ _ _ e) by done.
    exists 2, []. simpl. by rewrite <- !app_assoc. }
  rewrite bind_os_call_ok by done. cbv zeta.
  destruct (program (workflow w)) as [p|e] eqn:E1.
  2:{ rewrite (bind_call_program_raise _ _ e) by done.
      exists 3, []. simpl. by rewrite <- !app_assoc. }
  rewrite (bind_call_program_ok _ _ p) by done.
  destruct (apply_defaults (workflow w) kwargs) as [wf1|e] eqn:E2.
  2:{ rewrite (bind_call_raise _ _ _ _ e) by done.
      exists 4, []. simpl. by rewrite <- !app_assoc. }
  rewrite (bind_call_ok _ _ _ _ wf1) by done.
  destruct (generate_postconditions wf1 (abspath (mkdtemp dir))) as [wf2|e] eqn:E3.
  2:{ rewrite (bind_call_raise _ _ _ _ e) by done.
      exists 5, []. simpl. by rewrite <- !app_assoc. }
  rewrite (bind_call_ok _ _ _ _ wf2) by done.
  destruct (prune wf2) as [wf3|e] eqn:E4.
  2:{ rewrite (bind_call_raise _ _ _ _ e) by done.
      exists 6, []. simpl. by rewrite <- !app_assoc. }
  rewrite (bind_call_ok _ _ _ _ wf3) by done.
  match goal with
  | |- context [0 <? length (nodes (workflow ?w6))] =>
      destruct (execute_after_pruning os (abspath (mkdtemp dir)) w6) as (late & E & Hlate)
  end.
  exists 6, late. split; [|done].
  etrans; [exact E|]. simpl. by rewrite <- !app_assoc.
Qed.

(** A run whose opening calls return, with nodes left after pruning and the
    submission prepared, comes down to the guarded call of [submit]. *)
Lemma execute_on_reaches_submit os dir kwargs w w6 p wf1 wf2 wf3 wf4 wf5 :
  let directory := abspath (mkdtemp dir) in
  os_fails os (trace w) (EvMakedirs dir) = None →
  os_fails os (trace w ++ [EvMakedirs dir]) (EvMkdtemp dir) = None →
  program (workflow w) = Ok p →
  apply_defaults (workflow w) kwargs = Ok wf1 →
  generate_postconditions wf1 directory = Ok wf2 →
  prune wf2 = Ok wf3 →
  nodes wf3 ≠ [] →
  generate_executables wf3 directory = Ok wf4 →
  generate_metadata wf4 directory = Ok wf5 →
  prepare_submission_on os directory
    (mkWorld wf5
       (trace w ++
        [EvMakedirs dir; EvMkdtemp dir; EvProgram; EvApplyDefaults;
         EvGeneratePostconditions directory; EvPrune;
         EvGenerateExecutables directory; EvGenerateMetadata directory])) = (Ok tt, w6) →
  execute_on os dir kwargs w =
    try_except (submit_on os directory)
               (λ e, os_call os (EvPrint (exn_str e)) ;;; os_call os (EvRmtree directory)) w6.
Proof.
  intros directory O1 O2 E1 E2 E3 E4 Hnodes E5 E6 E7. subst directory.
  unfold execute_on. rewrite bind_os_call_ok by done. rewrite bind_os_call_ok by done.
  cbv zeta.
  rewrite (bind_call_program_ok _ _ p) by done.
  rewrite (bind_call_ok _ _ _ _ wf1) by done.
  rewrite (bind_call_ok _ _ _ _ wf2) by done.
  rewrite (bind_call_ok _ _ _ _ wf3) by done.
  cbn [workflow trace].
  destruct wf3 as [[|n ns]]; [done|]. cbn [nodes length Nat.ltb Nat.leb].
  rewrite (bind_call_ok _ _ _ _ wf4) by done.
  rewrite (bind_call_ok _ _ _ _ wf5) by done.
  cbn [workflow trace]. rewrite <- !app_assoc. simpl app.
  unfold bind at 1. by rewrite E7.
Qed.

End RunFacts.

Section RunClaims.
Context `{Collaborators}.

(** C3.  When the opening calls return and pruning leaves no node,
    [execute] returns normally; after [workflow.prune()] its only action is
    to remove the generated directory: no executable, metadata, task file
    or submission script is generated and nothing is submitted. *)
Theorem C3_nothing_to_do_when_all_pruned (dir : string) (kwargs : list (string * string))
    (w : World) (p : list Node) (wf1 wf2 wf3 : DAWG) :
  let directory := abspath (mkdtemp dir) in
  program (workflow w) = Ok p →
  apply_defaults (workflow w) kwargs = Ok wf1 →
  generate_postconditions wf1 directory = Ok wf2 →
  prune wf2 = Ok wf3 →
  nodes wf3 = [] →
  execute dir kwargs w =
    (Ok tt,
     mkWorld wf3
       (trace w ++
        [EvMakedirs dir; EvMkdtemp dir; EvProgram; EvApplyDefaults;
         EvGeneratePostconditions directory; EvPrune; EvRmtree directory])).
Proof.
  intros directory E1 E2 E3 E4 Hempty. subst directory.
  unfold execute, execute_on. rewrite !bind_os_call_ok by done. cbv zeta.
  rewrite (bind_call_program_ok _ _ p) by done.
  rewrite (bind_call_ok _ _ _ _ wf1) by done.
  rewrite (bind_call_ok _ _ _ _ wf2) by done.
  rewrite (bind_call_ok _ _ _ _ wf3) by done.
  simpl. rewrite Hempty. simpl. unfold os_call. simpl. by rewrite <- !app_assoc.
Qed.

(** C8, as the code has it.  When the run reaches [submit] and [submit]
    raises [e]: if [e] is an instance of [Exception], [execute] catches it,
    prints it and removes the generated directory, and returns normally
    when these two calls return; an exception they raise leaves [execute].
    If [e] is not an instance of [Exception] (a keyboard interrupt, a
    system exit), [execute] does not catch it: nothing is printed, the
    directory stays, and [e] reaches the caller.  [submit] raises what
    [os.system] raises, [Exception('Failed to submit pipeline.')] on a
    non-zero return code, and what its own [print] raises. *)
Theorem C8_submission_failure_is_caught (os : OS) (dir : string)
    (kwargs : list (string * string))
    (w w6 w7 : World) (p : list Node) (wf1 wf2 wf3 wf4 wf5 : DAWG) (e : exn) :
  let directory := abspath (mkdtemp dir) in
  let command := "bash " +:+ directory +:+ "/pipeline" in
  let submitted :=
    EvPrint ("Pipeline submitted. Logfiles are stored at `" +:+ (directory +:+ "/logs") +:+ "`") in
  os_fails os (trace w) (EvMakedirs dir) = None →
  os_fails os (trace w ++ [EvMakedirs dir]) (EvMkdtemp dir) = None →
  program (workflow w) = Ok p →
  apply_defaults (workflow w) kwargs = Ok wf1 →
  generate_postconditions wf1 directory = Ok wf2 →
  prune wf2 = Ok wf3 →
  nodes wf3 ≠ [] →
  generate_executables wf3 directory = Ok wf4 →
  generate_metadata wf4 directory = Ok wf5 →
  prepare_submission_on os directory
    (mkWorld wf5
       (trace w ++
        [EvMakedirs dir; EvMkdtemp dir; EvProgram; EvApplyDefaults;
         EvGeneratePostconditions directory; EvPrune;
         EvGenerateExecutables directory; EvGenerateMetadata directory])) = (Ok tt, w6) →
  submit_on os directory w6 = (Raise e, w7) →
  (is_Exception e = true →
   os_fails os (trace w7) (EvPrint (exn_str e)) = None →
   os_fails os (trace w7 ++ [EvPrint (exn_str e)]) (EvRmtree directory) = None →
   execute_on os dir kwargs w =
     (Ok tt,
      mkWorld (workflow w7) (trace w7 ++ [EvPrint (exn_str e); EvRmtree directory]))) ∧
  (is_Exception e = false → execute_on os dir kwargs w = (Raise e, w7)) ∧
  (is_Exception e = true →
   ∀ x, os_fails os (trace w7) (EvPrint (exn_str e)) = Some x →
        execute_on os dir kwargs w =
          (Raise x, mkWorld (workflow w7) (trace w7 ++ [EvPrint (exn_str e)]))) ∧
  (is_Exception e = true →
   os_fails os (trace w7) (EvPrint (exn_str e)) = None →
   ∀ x, os_fails os (trace w7 ++ [EvPrint (exn_str e)]) (EvRmtree directory) = Some x →
        execute_on os dir kwargs w =
          (Raise x,
           mkWorld (workflow w7) (trace w7 ++ [EvPrint (exn_str e); EvRmtree directory]))) ∧
  ((w7 = mkWorld (workflow w6) (trace w6 ++ [EvSystem command]) ∧
    (os_system command = Raise e ∨
     ∃ rc, os_system command = Ok rc ∧ rc ≠ 0%Z ∧
           e = Exn Exception "Failed to submit pipeline.")) ∨
   (w7 = mkWorld (workflow w6) (trace w6 ++ [EvSystem command; submitted]) ∧
    os_system command = Ok 0%Z ∧
    os_fails os (trace w6 ++ [EvSystem command]) submitted = Some e)).
Proof.
  intros directory command submitted O1 O2 E1 E2 E3 E4 Hnodes E5 E6 E7 E8.
  rewrite (execute_on_reaches_submit os dir kwargs w w6 p wf1 wf2 wf3 wf4 wf5) by done.
  fold directory. unfold try_except. rewrite E8.
  split; [|split; [|split; [|split]]].
  - intros -> P1 P2. unfold bind, os_call. rewrite P1. simpl. rewrite P2.
    simpl. by rewrite <- app_assoc.
  - by intros ->.
  - intros -> x P1. unfold bind, os_call. by rewrite P1.
  - intros -> P1 x P2. unfold bind, os_call. rewrite P1. simpl. rewrite P2.
    simpl. by rewrite <- app_assoc.
  - rewrite submit_on_cases in E8. fold command in E8.
    destruct (os_system command) as [rc|e'] eqn:Hos.
    + destruct (Z.eqb_spec rc 0) as [->|Hrc].
      * right. unfold os_call in E8. simpl in E8. fold submitted in E8.
        destruct (os_fails os (trace w6 ++ [EvSystem command]) submitted) as [x|] eqn:Hp;
          [|done].
        injection E8 as <- <-. by rewrite <- app_assoc.
      * injection E8 as <- <-. left. split; [done|]. right. by exists rc.
    + injection E8 as <- <-. left. split; [done|]. by left.
Qed.

End RunClaims.

Lemma C3_nothing_to_do_when_all_pruned_witness :
  @execute example_env ".workflows" [] (mkWorld example_done []) =
    (Ok tt,
     mkWorld (mkDAWG [])
       ([] ++
        [EvMakedirs ".workflows"; EvMkdtemp ".workflows"; EvProgram; EvApplyDefaults;
         EvGeneratePostconditions (@abspath example_env (@mkdtemp example_env ".workflows"));
         EvPrune;
         EvRmtree (@abspath example_env (@mkdtemp example_env ".workflows"))])).
Proof.
  exact (@C3_nothing_to_do_when_all_pruned example_env ".workflows" []
           (mkWorld example_done []) (nodes example_done) example_done example_done
           (mkDAWG []) eq_refl eq_refl eq_refl eq_refl eq_refl).
Defined.

(** C8 as the spec states it fails: when the call to the scheduler is
    interrupted from the keyboard, [submit] raises [KeyboardInterrupt],
    which [except Exception] does not catch: [execute] raises it, and
    nothing is printed and the directory is not removed. *)
Lemma C8_keyboard_interrupt_is_not_caught :
  (∀ w, (@submit example_env_interrupted "/home/user/.workflows/tmpq3x" w).1 =
        Raise (Exn KeyboardInterrupt "")) ∧
  (@execute example_env_interrupted ".workflows" [] (mkWorld example_graph [])).1 =
    Raise (Exn KeyboardInterrupt "") ∧
  last (trace (@execute example_env_interrupted ".workflows" []
                 (mkWorld example_graph [])).2) =
    Some (EvSystem "bash /home/user/.workflows/tmpq3x/pipeline") ∧
  forallb (λ ev, match ev with EvPrint _ | EvRmtree _ => false | _ => true end)
          (trace (@execute example_env_interrupted ".workflows" []
                    (mkWorld example_graph [])).2) = true.
Proof.
  split; [intros w; reflexivity|]. repeat split; vm_compute; reflexivity.
Qed.

Lemma C8_submission_failure_is_caught_witness :
  ∃ w7,
    @execute_on example_env_failing reliable ".workflows" [] (mkWorld example_graph []) =
      (Ok tt,
       mkWorld (workflow w7)
         (trace w7 ++
          [EvPrint "Failed to submit pipeline.";
           EvRmtree "/home/user/.workflows/tmpq3x"])) ∧
    last (trace w7) = Some (EvSystem "bash /home/user/.workflows/tmpq3x/pipeline").
Proof.
  eexists. split.
  - refine (proj1 (@C8_submission_failure_is_caught example_env_failing reliable
              ".workflows" [] (mkWorld example_graph []) _ _ (nodes example_graph)
              example_graph example_graph example_graph example_graph example_graph
              (Exn Exception "Failed to submit pipeline.")
              eq_refl eq_refl eq_refl eq_refl eq_refl eq_refl _ eq_refl eq_refl _ _)
              eq_refl eq_refl eq_refl).
    + discriminate.
    + vm_compute. reflexivity.
    + vm_compute. reflexivity.
  - vm_compute. reflexivity.
Defined.

(** * Further properties *)

(** ** The submission script in full *)

Section ScriptContent.
Context `{Collaborators}.

(** X1.  The whole content of the [pipeline] file.  On a topological program of
    uniquely identified nodes it is the two header lines, then for the task
    at each position [i] the line [t<i>=$(sbatch <flag>dir/<file>)], where
    the flag is absent for a task without dependencies and otherwise is
    [--dependency=afterok] followed by one [:$t<k>] per dependency, in the
    order of [task.dependencies], [k] being an earlier position of the
    program that holds the dependency; then the [echo] that stores
    [$t0 ... $t(n-1)], one per line, in [dir/job_identifiers]. *)
Theorem pipeline_file_content (dir : string) (w : World) (p : list Node) :
  program (workflow w) = Ok p → topological p → unique_identifiers p →
  ∃ body,
    generate_submission_script dir w =
      (Ok tt,
       mkWorld (workflow w)
         (trace w ++
          [EvProgram;
           EvWriteFile (dir +:+ "/pipeline")
             (write_lines ("#!/usr/bin/env bash" :: ("mkdir -p " +:+ dir +:+ "/logs") :: body)
              +:+ ("echo " +:+ quote +:+ job_variables (length p)) +:+
                  quote +:+ " > " +:+ dir +:+ "/job_identifiers")])) ∧
    length body = length p ∧
    ∀ i task, p !! i = Some task →
      ∃ indices,
        Forall2 (λ d k, k < i ∧ ∃ t', p !! k = Some t' ∧ identifier t' = d)
                (dependencies task) indices ∧
        body !! i = Some (sbatch_line dir i task indices).
Proof.
  intros Hp Htopo Huniq.
  destruct (submission_loop_prefix_exact dir p (length p) Htopo)
    as (st & body & Est & Elines & Elen & Ejobs & Hbody & _); [done|].
  rewrite firstn_all in Est. exists body.
  split; [|split; [done|]].
  - rewrite (generate_submission_script_run dir w p st) by done.
    by rewrite Elines, Ejobs.
  - intros i task Hi.
    destruct (Hbody i task Hi) as (indices & Hindices & Hline).
    { by apply lookup_lt_Some in Hi. }
    exists indices. split; [|done].
    assert (∀ d, d ∈ dependencies task → d ≠ identifier task) as Hself.
    { intros d Hd ->. by apply (no_self_dependency p i task). }
    clear Hline. induction Hindices as [|d k ds ks (Hk & t' & Ht' & Hid) _ IH]; constructor.
    + split; [|by exists t']. destruct (decide (k = i)) as [->|?]; [|lia].
      rewrite Hi in Ht'. injection Ht' as <-. destruct (Hself d); [by left|done].
    + apply IH. intros x Hx. apply Hself. by right.
Qed.

(** X2.  A dependency that no earlier task of the program carries makes
    [generate_submission_script] raise [KeyError] at the first such lookup;
    the [pipeline] file is then not written. *)
Theorem missing_dependency_raises_key_error (dir : string) (w : World)
    (earlier later : list Node) (task : Node) (found rest : list Callable) (d : Callable) :
  program (workflow w) = Ok (earlier ++ task :: later) →
  topological earlier →
  dependencies task = found ++ d :: rest →
  (∀ x, x ∈ found → x = identifier task ∨ x ∈ identifier <$> earlier) →
  d ≠ identifier task → d ∉ identifier <$> earlier →
  generate_submission_script dir w =
    (Raise (Exn KeyError (pretty d)), mkWorld (workflow w) (trace w ++ [EvProgram])).
Proof.
  intros Hp Htopo Hdeps Hfound Hd Hmissing.
  destruct (submission_loop_prefix dir earlier (length earlier) Htopo)
    as (st & _ & Est & _ & _ & _ & Hdom & Hall); [done|].
  rewrite firstn_all in Est.
  assert (submission_loop dir (script_init dir) 0 (earlier ++ task :: later) =
          Raise (Exn KeyError (pretty d))) as Eloop.
  { rewrite submission_loop_app, Est. cbn [result_bind]. simpl. unfold submission_step.
    rewrite Hdeps, length_app. simpl. rewrite Nat.add_succ_r. simpl.
    rewrite dependency_flag_missing; [done| |].
    - intros x Hx. destruct (Hfound x Hx) as [->|Hin].
      + rewrite lookup_insert_eq. by eexists.
      + apply list_elem_of_fmap in Hin as (t' & -> & Hin).
        apply list_elem_of_lookup in Hin as [j Hj].
        destruct (decide (identifier task = identifier t')) as [->|Hne].
        * rewrite lookup_insert_eq. by eexists.
        * rewrite lookup_insert_ne by done. apply (Hall j t' Hj).
          by apply lookup_lt_Some in Hj.
    - rewrite lookup_insert_ne by done.
      destruct (st_tasks st !! d) as [k|] eqn:Hk; [|done].
      destruct (Hdom d k Hk) as (_ & t' & Ht' & <-). destruct Hmissing.
      apply list_elem_of_fmap. exists t'. split; [done|].
      apply list_elem_of_lookup. by exists k. }
  unfold generate_submission_script.
  by rewrite (generate_submission_script_on_raise reliable dir w _ _ Hp Eloop).
Qed.

End ScriptContent.

(** ** How a run ends *)

Section RunProperties.
Context `{Collaborators}.

(** X17.  In every run of [execute], whatever the collaborators and the
    operating system do, a call to [workflow.prune()] comes after the call to
    [generate_postconditions], and every call to [generate_postconditions]
    comes before it: [execute] asks for the postconditions once, before it
    asks for the pruning, and never again. *)
Theorem postconditions_generated_before_pruning (os : OS) (dir : string)
    (kwargs : list (string * string)) (w : World) :
  ∃ new,
    trace (execute_on os dir kwargs w).2 = trace w ++ new ∧
    ∀ i, new !! i = Some EvPrune →
      (∃ j, j < i ∧ new !! j = Some (EvGeneratePostconditions (abspath (mkdtemp dir)))) ∧
      (∀ j d, new !! j = Some (EvGeneratePostconditions d) → j < i) ∧
      (∀ j, new !! j = Some EvPrune → j = i).
Proof.
  destruct (execute_trace_shape os dir kwargs w) as (k & late & E & Hlate).
  eexists. split; [exact E|].
  assert (∀ j e, late !! j = Some e → after_pruning e) as Hl.
  { intros j e He. by eapply Forall_lookup_1. }
  set (opening := [EvMakedirs dir; EvMkdtemp dir; EvProgram; EvApplyDefaults;
                   EvGeneratePostconditions (abspath (mkdtemp dir)); EvPrune]).
  assert (∀ j e, (take k opening ++ late) !! j = Some e → ¬ after_pruning e →
                 take k opening !! j = Some e) as Hopen.
  { intros j e He Hne. apply lookup_app_Some in He as [He|[_ He]]; [done|].
    destruct Hne. by eapply Hl. }
  assert (∀ j, take k opening !! j = Some EvPrune → j = 5 ∧ 5 < k) as Hprune.
  { intros j Hj. apply lookup_take_Some in Hj as [Hj Hk].
    destruct j as [|[|[|[|[|[|j]]]]]]; simpl in Hj; done. }
  assert (∀ j d, take k opening !! j = Some (EvGeneratePostconditions d) → j = 4) as Hgen.
  { intros j d Hj. apply lookup_take_Some in Hj as [Hj Hk].
    by destruct j as [|[|[|[|[|[|j]]]]]]. }
  intros i Hi. apply Hopen in Hi; [|by intros ?].
  destruct (Hprune i Hi) as [-> Hk]. split; [|split].
  - exists 4. split; [lia|]. rewrite lookup_app_l by (rewrite length_take; simpl; lia).
    rewrite lookup_take_lt by lia. done.
  - intros j d Hj. apply Hopen in Hj; [|by intros ?]. apply Hgen in Hj. lia.
  - intros j Hj. apply Hopen in Hj; [|by intros ?]. by apply Hprune in Hj as [-> _].
Qed.

(** X7.  When the run reaches [submit] and [os.system] answers 0, [execute]
    returns normally after printing where the log files are, and keeps the
    generated directory. *)
Theorem accepted_submission_keeps_directory (dir : string) (kwargs : list (string * string))
    (w w6 : World) (p : list Node) (wf1 wf2 wf3 wf4 wf5 : DAWG) :
  let directory := abspath (mkdtemp dir) in
  program (workflow w) = Ok p →
  apply_defaults (workflow w) kwargs = Ok wf1 →
  generate_postconditions wf1 directory = Ok wf2 →
  prune wf2 = Ok wf3 →
  nodes wf3 ≠ [] →
  generate_executables wf3 directory = Ok wf4 →
  generate_metadata wf4 directory = Ok wf5 →
  prepare_submission directory
    (mkWorld wf5
       (trace w ++
        [EvMakedirs dir; EvMkdtemp dir; EvProgram; EvApplyDefaults;
         EvGeneratePostconditions directory; EvPrune;
         EvGenerateExecutables directory; EvGenerateMetadata directory])) = (Ok tt, w6) →
  os_system ("bash " +:+ directory +:+ "/pipeline") = Ok 0%Z →
  execute dir kwargs w =
    (Ok tt,
     mkWorld (workflow w6)
       (trace w6 ++
        [EvSystem ("bash " +:+ directory +:+ "/pipeline");
         EvPrint ("Pipeline submitted. Logfiles are stored at `" +:+
                  (directory +:+ "/logs") +:+ "`")])).
Proof.
  intros directory E1 E2 E3 E4 Hnodes E5 E6 E7 Hos.
  unfold execute.
  rewrite (execute_on_reaches_submit reliable dir kwargs w w6 p wf1 wf2 wf3 wf4 wf5)
    by done.
  fold directory. unfold try_except.
  change (submit_on reliable directory w6) with (submit directory w6).
  by rewrite submit_cases, Hos.
Qed.

End RunProperties.

(** ** Attributes, task files and their names *)

Lemma dict_get_None key d : dict_get key d = None ↔ key ∉ d.*1.
Proof.
  induction d as [|[k v] d IH]; simpl.
  - split; [intros _; apply not_elem_of_nil | done].
  - rewrite not_elem_of_cons. destruct (String.eqb_spec key k) as [->|Hne].
    + split; [done|]. by intros [? _].
    + rewrite IH. tauto.
Qed.

Lemma dict_set_same key value d : dict_get key d = Some value → dict_set key value d = d.
Proof.
  induction d as [|[k v] d IH]; simpl; [done|].
  destruct (String.eqb_spec key k) as [->|Hne].
  - by intros [= ->].
  - intros Hd. by rewrite IH.
Qed.

Lemma dict_set_fresh key value d : dict_get key d = None → dict_set key value d = d ++ [(key, value)].
Proof.
  induction d as [|[k v] d IH]; simpl; [done|].
  destruct (String.eqb_spec key k) as [->|Hne]; [done|].
  intros Hd. by rewrite IH.
Qed.

Lemma dict_set_fst key value d :
  (dict_set key value d).*1 = d.*1 ++ (if bool_decide (key ∈ d.*1) then [] else [key]).
Proof.
  destruct (dict_get key d) as [v|] eqn:Hd.
  - assert (key ∈ d.*1) as Hin.
    { destruct (decide (key ∈ d.*1)) as [|Hn]; [done|].
      apply dict_get_None in Hn. congruence. }
    rewrite bool_decide_eq_true_2, app_nil_r by done.
    clear Hin. revert Hd. induction d as [|[k v'] d IH]; cbn [dict_get dict_set]; [done|].
    destruct (String.eqb_spec key k) as [->|Hne]; [done|].
    intros Hd. by rewrite !fmap_cons, IH.
  - rewrite dict_set_fresh by done.
    rewrite bool_decide_eq_false_2 by by apply dict_get_None.
    by rewrite fmap_app.
Qed.

Lemma filter_agree {A} (P Q : A → Prop) `{!∀ x, Decision (P x), !∀ x, Decision (Q x)}
    (l : list A) :
  Forall (λ x, P x ↔ Q x) l → filter P l = filter Q l.
Proof.
  induction 1 as [|x l Hx _ IH]; [done|].
  rewrite !filter_cons, IH. destruct (decide (P x)), (decide (Q x)); tauto.
Qed.

(** Assigning a run of distinct keys keeps the keys already there in place
    and appends the new ones in the order of assignment. *)
Lemma dict_set_all_fst (kvs : list (string * string)) d :
  NoDup kvs.*1 →
  (fold_left (λ acc kv, dict_set kv.1 kv.2 acc) kvs d).*1 =
    d.*1 ++ filter (λ k, k ∉ d.*1) kvs.*1.
Proof.
  revert d. induction kvs as [|[k v] kvs IH]; intros d Hnd.
  - simpl. by rewrite app_nil_r.
  - rewrite fmap_cons in Hnd. apply NoDup_cons in Hnd as [Hk Hnd].
    rewrite fmap_cons. cbn [fold_left fst snd] in *.
    rewrite IH by done. rewrite dict_set_fst, filter_cons. case_bool_decide as Hin.
    + rewrite app_nil_r. by rewrite decide_False by (by intros ?).
    + rewrite decide_True by done. rewrite <- app_assoc. simpl. do 2 f_equal.
      apply filter_agree. apply Forall_forall. intros x Hx.
      rewrite elem_of_app, list_elem_of_singleton.
      split; [tauto|]. intros Hnx [?| ->]; done.
Qed.

Lemma length_append (a b : string) :
  String.length (a +:+ b) = String.length a + String.length b.
Proof.
  induction a as [|x a IH]; [done|].
  change (String x a +:+ b) with (String x (a +:+ b)). simpl. by rewrite IH.
Qed.

Lemma append_inj_r (a b c : string) : a +:+ c = b +:+ c → a = b.
Proof.
  revert b. induction a as [|x a IH]; intros [|y b] Heq; [done| | |].
  - apply (f_equal String.length) in Heq.
    rewrite !length_append in Heq. simpl in Heq. lia.
  - apply (f_equal String.length) in Heq.
    rewrite !length_append in Heq. simpl in Heq. lia.
  - change (String x (a +:+ c) = String y (b +:+ c)) in Heq.
    injection Heq as -> Heq. by rewrite (IH b Heq).
Qed.

Section FileProperties.
Context `{Collaborators}.


(** X9.  Two nodes with different [id(node)] get different task files, so no
    task file overwrites another. *)
Theorem task_files_do_not_collide (dir : string) (n1 n2 : Node) :
  object_id (identifier n1) ≠ object_id (identifier n2) →
  dir +:+ "/" +:+ node_task_filename n1 ≠ dir +:+ "/" +:+ node_task_filename n2.
Proof.
  intros Hne Heq. apply String.app_inj in Heq.
  change ("/" +:+ node_task_filename n1 = "/" +:+ node_task_filename n2) in Heq.
  apply String.app_inj in Heq. unfold node_task_filename in Heq.
  apply append_inj_r in Heq. by apply (inj pretty) in Heq.
Qed.

Lemma setitem_same key value node :
  dict_get key (attributes node) = Some value → setitem key value node = node.
Proof. intros Hd. destruct node. unfold setitem. simpl in *. by rewrite dict_set_same. Qed.

Lemma default_attribute_values dir node :
  let node' := add_default_attributes_node dir node in
  dict_get "--export=" (attributes node') = Some "ALL" ∧
  dict_get "--parsable" (attributes node') = Some "" ∧
  dict_get "--requeue" (attributes node') = Some "" ∧
  dict_get "--job-name=" (attributes node') = Some (quote +:+ name node' +:+ quote) ∧
  dict_get "--output=" (attributes node') =
    Some ((if (1 <? tasks node')%Z
           then (quote +:+ dir +:+ "/logs/" +:+ name node') +:+ "-%A_%a.log"
           else (quote +:+ dir +:+ "/logs/" +:+ name node') +:+ "-%j.log") +:+ quote).
Proof.
  unfold add_default_attributes_node. simpl. repeat split.
  - by rewrite !dict_get_set_ne, dict_get_set_eq by discriminate.
  - by rewrite !dict_get_set_ne, dict_get_set_eq by discriminate.
  - by rewrite !dict_get_set_ne, dict_get_set_eq by discriminate.
  - by rewrite !dict_get_set_ne, dict_get_set_eq by discriminate.
  - by rewrite dict_get_set_eq.
Qed.

(** A node that already holds the default values is left as it is. *)
Lemma add_default_attributes_fixed dir node :
  dict_get "--export=" (attributes node) = Some "ALL" →
  dict_get "--parsable" (attributes node) = Some "" →
  dict_get "--requeue" (attributes node) = Some "" →
  dict_get "--job-name=" (attributes node) = Some (quote +:+ name node +:+ quote) →
  dict_get "--output=" (attributes node) =
    Some ((if (1 <? tasks node)%Z
           then (quote +:+ dir +:+ "/logs/" +:+ name node) +:+ "-%A_%a.log"
           else (quote +:+ dir +:+ "/logs/" +:+ name node) +:+ "-%j.log") +:+ quote) →
  add_default_attributes_node dir node = node.
Proof.
  intros H1 H2 H3 H4 H5. unfold add_default_attributes_node. cbv zeta.
  rewrite (setitem_same "--export=" "ALL" node H1).
  rewrite (setitem_same "--parsable" "" node H2).
  rewrite (setitem_same "--requeue" "" node H3).
  rewrite (setitem_same "--job-name=" _ node H4).
  by rewrite (setitem_same "--output=" _ node H5).
Qed.

(** X10.  [add_default_attributes] is idempotent on a node: a second pass leaves
    the node as the first pass made it. *)
Theorem add_default_attributes_idempotent (dir : string) (node : Node) :
  add_default_attributes_node dir (add_default_attributes_node dir node) =
  add_default_attributes_node dir node.
Proof.
  destruct (default_attribute_values dir node) as (H1 & H2 & H3 & H4 & H5).
  by apply add_default_attributes_fixed.
Qed.

(** X11.  [add_default_attributes] never moves or removes a key: the keys of the
    node keep their positions, and the default keys that the node did not
    have follow them, in the order export, parsable, requeue, job-name,
    output. *)
Theorem add_default_attributes_key_order (dir : string) (node : Node) :
  (attributes (add_default_attributes_node dir node)).*1 =
    (attributes node).*1 ++
    filter (λ k, k ∉ (attributes node).*1)
           ["--export="; "--parsable"; "--requeue"; "--job-name="; "--output="].
Proof.
  unfold add_default_attributes_node, setitem. simpl.
  set (job := quote +:+ name node +:+ quote).
  set (out := (if (1 <? tasks node)%Z then _ else _) +:+ quote).
  apply (dict_set_all_fst
           [("--export=", "ALL"); ("--parsable", ""); ("--requeue", "");
            ("--job-name=", job); ("--output=", out)] (attributes node)).
  apply (bool_decide_unpack _). by vm_compute.
Qed.

(** X12.  On a node that carries none of the default keys, the directives of the
    task file after [add_default_attributes] are the node's own directives
    followed by the five defaults. *)
Theorem default_directives_follow_user_directives (dir : string) (node : Node) :
  (∀ k, k ∈ ["--export="; "--parsable"; "--requeue"; "--job-name="; "--output="] →
        k ∉ (attributes node).*1) →
  sbatch_directives (add_default_attributes_node dir node) =
    sbatch_directives node ++
    ["#SBATCH --export=ALL"; "#SBATCH --parsable"; "#SBATCH --requeue";
     "#SBATCH --job-name=" +:+ quote +:+ name node +:+ quote;
     "#SBATCH --output=" +:+ quote +:+
       (dir +:+ "/logs/" +:+ name node +:+
        (if decide (1 < tasks node)%Z then "-%A_%a.log" else "-%j.log")) +:+ quote].
Proof.
  intros Hfresh.
  assert (∀ k, k ∈ ["--export="; "--parsable"; "--requeue"; "--job-name="; "--output="] →
               dict_get k (attributes node) = None) as Hnone.
  { intros k Hk. by apply dict_get_None, Hfresh. }
  unfold sbatch_directives, add_default_attributes_node, setitem. simpl.
  rewrite (dict_set_fresh "--export=") by (apply Hnone; set_solver).
  rewrite (dict_set_fresh "--parsable")
    by (rewrite dict_get_None, fmap_app, not_elem_of_app; split;
        [apply Hfresh; set_solver | by apply (bool_decide_unpack _)]).
  rewrite (dict_set_fresh "--requeue")
    by (rewrite dict_get_None, !fmap_app, !not_elem_of_app; split_and!;
        [apply Hfresh; set_solver | by apply (bool_decide_unpack _)..]).
  rewrite (dict_set_fresh "--job-name=")
    by (rewrite dict_get_None, !fmap_app, !not_elem_of_app; split_and!;
        [apply Hfresh; set_solver | by apply (bool_decide_unpack _)..]).
  rewrite (dict_set_fresh "--output=")
    by (rewrite dict_get_None, !fmap_app, !not_elem_of_app; split_and!;
        [apply Hfresh; set_solver | by apply (bool_decide_unpack _)..]).
  rewrite <- !app_assoc. simpl. rewrite filter_app, map_app. f_equal.
  rewrite !filter_cons, filter_nil. simpl.
  destruct (Z.ltb_spec 1 (tasks node)).
  - rewrite decide_True by done. simpl. by rewrite !append_assoc.
  - rewrite decide_False by lia. simpl. by rewrite !append_assoc.
Qed.

(** X13.  [prepare_submission] as a whole: when [workflow.program()] of the
    workflow with its default attributes is topological and the files can
    be written, it returns normally, leaves the default attributes on the
    nodes of the workflow, and writes the task file of every node, with its
    default directives, followed by the [pipeline] file with one line per
    task of the program. *)
Theorem prepare_submission_succeeds (os : OS) (dir : string) (w : World) (p : list Node) :
  let prepared := mkDAWG (map (add_default_attributes_node dir) (nodes (workflow w))) in
  program prepared = Ok p → topological p →
  (∀ t path content, os_fails os t (EvWriteFile path content) = None) →
  ∃ body,
    prepare_submission_on os dir w =
      (Ok tt,
       mkWorld prepared
         (trace w ++
          map (λ node, EvWriteFile (dir +:+ "/" +:+ node_task_filename node)
                                   (file_text (task_file dir node)))
              (nodes prepared) ++
          [EvProgram;
           EvWriteFile (dir +:+ "/pipeline")
             (file_text ("#!/usr/bin/env bash" :: ("mkdir -p " +:+ dir +:+ "/logs") :: body)
              +:+ ("echo " +:+ quote +:+ job_variables (length p)) +:+
                  quote +:+ " > " +:+ dir +:+ "/job_identifiers")])) ∧
    length body = length p ∧
    ∀ i task, p !! i = Some task →
      ∃ indices,
        Forall2 (λ d k, k ≤ i ∧ ∃ t', p !! k = Some t' ∧ identifier t' = d)
                (dependencies task) indices ∧
        body !! i = Some (sbatch_line dir i task indices).
Proof.
  intros prepared Hp Htopo Hos. unfold prepare_submission_on, add_default_attributes.
  unfold bind at 1. fold prepared.
  destruct (task_files_then_script os dir (mkWorld prepared (trace w)) p Hp) as [Hrun Hok].
  specialize (Hok Htopo Hos). destruct (Hrun Hok) as (body & Ew & Elen & Hbody).
  exists body. split; [|split; [done|]].
  - match goal with
    | |- ?run = _ => destruct run as [r w'] eqn:Erun
    end.
    match type of Hok with
    | ?run'.1 = _ => change run' with (r, w') in Hok, Ew
    end.
    simpl in Hok, Ew. by subst.
  - intros i task Hi. destruct (Hbody i task Hi) as (indices & Hindices & Hline).
    exists indices. split; [|done].
    eapply Forall2_impl; [exact Hindices|]. intros d k (? & ? & _). done.
Qed.

End FileProperties.

(** ** What the decorators leave alone *)

Section DecoratorProperties.
Context `{Collaborators}.

(** The fields of a node other than its dependencies. *)
Lemma add_and_get_node_keeps c g c' n :
  find_node g c' = Some n → find_node (add_and_get_node c g).2 c' = Some n.
Proof.
  intros Hn. unfold add_and_get_node. destruct (find_node g c); [done|].
  destruct g as [l]. simpl. by rewrite find_node_app, Hn.
Qed.

Lemma add_dependency_keeps c d g c' n :
  find_node g c' = Some n →
  ∃ n', find_node (add_dependency c d g).2 c' = Some n' ∧
        name n' = name n ∧ tasks n' = tasks n ∧ attributes n' = attributes n.
Proof.
  intros Hn. unfold add_dependency. case_bool_decide; [by exists n|]. simpl.
  rewrite find_node_map by (intros m; by case_bool_decide). rewrite Hn. simpl.
  case_bool_decide; by eexists.
Qed.

Lemma dependency_loop_keeps f ds g c n :
  find_node g c = Some n →
  ∃ n', find_node (dependency_loop f ds g).2 c = Some n' ∧
        name n' = name n ∧ tasks n' = tasks n ∧ attributes n' = attributes n.
Proof.
  revert g n. induction ds as [|d ds IH]; intros g n Hn; simpl.
  - by exists n.
  - case_bool_decide; [by exists n|]. unfold bind.
    pose proof (add_and_get_node_keeps d g c n Hn) as H1.
    destruct (add_and_get_node_spec d g) as (g1 & E1 & _). rewrite E1 in *. simpl in H1.
    destruct (add_dependency_keeps f d g1 c n H1) as (n2 & H2 & Hname & Htasks & Hattrs).
    destruct (add_dependency f d g1) as [[[]|e] g2]; simpl in H2.
    + destruct (IH g2 n2 H2) as (n3 & H3 & ? & ? & ?). exists n3.
      split; [done|]. split_and!; congruence.
    + by exists n2.
Qed.

(** X14.  [dependency(f, ds)] changes the graph by what it declares and nothing
    else: the registered definitions are the old ones, [f] and [ds]; the
    only dependency sets that grow are that of [f], by [ds]; and every node
    that was registered keeps its name, replica count and attributes. *)
Theorem dependency_changes_nothing_else (f : Callable) (deps : dependencies_arg) (g : DAWG) :
  f ∉ as_list deps →
  ∃ g', dependency f deps g = (Ok f, g') ∧
        (∀ c, registered g' c ↔ registered g c ∨ c = f ∨ c ∈ as_list deps) ∧
        (∀ c x, x ∈ deps_of g' c ↔ x ∈ deps_of g c ∨ (c = f ∧ x ∈ as_list deps)) ∧
        (∀ c n, find_node g c = Some n →
           ∃ n', find_node g' c = Some n' ∧
                 name n' = name n ∧ tasks n' = tasks n ∧ attributes n' = attributes n).
Proof.
  intros Hnot. unfold dependency.
  destruct (add_and_get_node_spec f g) as (g1 & E1 & R1 & D1).
  destruct (dependency_loop_ok f (as_list deps) g1 Hnot) as (g2 & E2 & R2 & D2).
  { apply R1. by right. }
  exists g2. unfold bind, ret. rewrite E1, E2. split; [done|]. split; [|split].
  - intros c. rewrite R2, R1. tauto.
  - intros c x. by rewrite D2, D1.
  - intros c n Hn. pose proof (add_and_get_node_keeps f g c n Hn) as H1.
    rewrite E1 in H1. simpl in H1.
    pose proof (dependency_loop_keeps f (as_list deps) g1 c n H1) as H2.
    by rewrite E2 in H2.
Qed.

(** X15.  [conda(f, environment)] registers [f], stores the environment under the
    key [conda] of its node, and touches nothing else: no other attribute of
    that node, no dependency set, and no other node. *)
Theorem conda_changes_nothing_else (f : Callable) (environment : string) (g : DAWG) :
  ∃ g' n,
    conda f environment g = (Ok f, g') ∧
    find_node g' f = Some n ∧
    getitem n "conda" = Ok environment ∧
    (∀ key, key ≠ "conda" →
       dict_get key (attributes n) =
         match find_node g f with
         | Some n0 => dict_get key (attributes n0)
         | None => None
         end) ∧
    (∀ c, registered g' c ↔ registered g c ∨ c = f) ∧
    (∀ c, deps_of g' c = deps_of g c) ∧
    (∀ c, c ≠ f → find_node g' c = find_node g c).
Proof.
  unfold conda. destruct (add_and_get_node_spec f g) as (g1 & E1 & R1 & D1).
  unfold bind. rewrite E1.
  destruct (proj2 (R1 f) (or_intror eq_refl)) as [n1 Hn1].
  pose proof (find_node_identifier _ _ _ Hn1) as Hid.
  assert (∀ c, find_node
                 (mkDAWG (map (λ n, if bool_decide (identifier n = f)
                                    then setitem "conda" environment n else n) (nodes g1))) c =
               (λ n, if bool_decide (identifier n = f)
                     then setitem "conda" environment n else n) <$> find_node g1 c) as Hmap.
  { intros c. apply find_node_map. intros m. by case_bool_decide. }
  assert (∀ c, c ≠ f → find_node g1 c = find_node g c) as Hother.
  { intros c Hc. revert E1. unfold add_and_get_node.
    destruct (find_node g f); intros [= <-]; [done|].
    destruct g as [l]. simpl. rewrite find_node_app.
    destruct (find_node (mkDAWG l) c); [done|]. simpl. by rewrite bool_decide_eq_false_2. }
  eexists _, (setitem "conda" environment n1). split; [done|].
  split; [|split; [|split; [|split; [|split]]]].
  - rewrite Hmap, Hn1. simpl. by rewrite bool_decide_eq_true_2.
  - unfold getitem. simpl. by rewrite dict_get_set_eq.
  - intros key Hkey. simpl. rewrite dict_get_set_ne by done.
    revert E1 Hn1. unfold add_and_get_node.
    destruct (find_node g f) as [n0|] eqn:Hf; intros [= <-].
    + rewrite Hf. by intros [= ->].
    + destruct g as [l]. simpl in *. rewrite find_node_app, Hf. simpl.
      rewrite bool_decide_eq_true_2 by done. by intros [= <-].
  - intros c. unfold registered at 1. rewrite Hmap, fmap_is_Some. apply R1.
  - intros c. rewrite <- D1. unfold deps_of. rewrite Hmap.
    destruct (find_node g1 c) as [m|]; simpl; [|done]. by case_bool_decide.
  - intros c Hc. rewrite Hmap, <- (Hother c Hc).
    destruct (find_node g1 c) as [m|] eqn:Hm; simpl; [|done].
    rewrite bool_decide_eq_false_2; [done|].
    by rewrite (find_node_identifier _ _ _ Hm).
Qed.

End DecoratorProperties.

(** ** The further properties on the example *)

Lemma topological_add_default_attributes dir p :
  topological p → topological (map (add_default_attributes_node dir) p).
Proof.
  intros Htopo i t d Hi Hd. rewrite list_lookup_fmap in Hi.
  destruct (p !! i) as [t0|] eqn:Hi0; [|done]. injection Hi as <-.
  destruct (Htopo i t0 d Hi0 Hd) as (j & t' & Hj & Ht' & Hid).
  exists j, (add_default_attributes_node dir t'). split; [done|].
  rewrite list_lookup_fmap, Ht'. done.
Qed.

Section Examples.
#[local] Existing Instance example_env.

Lemma pipeline_file_content_witness :
  let w := mkWorld example_graph [] in
  program (workflow w) = Ok (nodes example_graph) ∧
  topological (nodes example_graph) ∧ unique_identifiers (nodes example_graph) ∧
  ∃ body,
    generate_submission_script "/run" w =
      (Ok tt,
       mkWorld (workflow w)
         (trace w ++
          [EvProgram;
           EvWriteFile ("/run" +:+ "/pipeline")
             (write_lines ("#!/usr/bin/env bash" :: ("mkdir -p " +:+ "/run" +:+ "/logs") :: body)
              +:+ ("echo " +:+ quote +:+ job_variables (length (nodes example_graph))) +:+
                  quote +:+ " > " +:+ "/run" +:+ "/job_identifiers")])) ∧
    length body = length (nodes example_graph) ∧
    ∀ i task, nodes example_graph !! i = Some task →
      ∃ indices,
        Forall2 (λ d k, k < i ∧ ∃ t', nodes example_graph !! k = Some t' ∧ identifier t' = d)
                (dependencies task) indices ∧
        body !! i = Some (sbatch_line "/run" i task indices).
Proof.
  intros w. split; [reflexivity|].
  split; [exact example_graph_topological|].
  split; [exact example_graph_unique_identifiers|].
  exact (pipeline_file_content "/run" w (nodes example_graph) eq_refl
           example_graph_topological example_graph_unique_identifiers).
Defined.

Lemma missing_dependency_raises_key_error_witness :
  let task := mkNode 2%positive "train" 1 [] [1%positive] in
  let w := mkWorld (mkDAWG [task]) [] in
  generate_submission_script "/run" w =
    (Raise (Exn KeyError (pretty 1%positive)), mkWorld (workflow w) (trace w ++ [EvProgram])).
Proof.
  intros task w.
  refine (missing_dependency_raises_key_error "/run" w [] [] task [] [] 1%positive
            eq_refl _ eq_refl _ _ _).
  - intros i t d Hi. discriminate Hi.
  - intros x Hx. by apply elem_of_nil in Hx.
  - discriminate.
  - apply not_elem_of_nil.
Defined.

Lemma accepted_submission_keeps_directory_witness :
  ∃ w6,
    execute ".workflows" [] (mkWorld example_graph []) =
      (Ok tt,
       mkWorld (workflow w6)
         (trace w6 ++
          [EvSystem "bash /home/user/.workflows/tmpq3x/pipeline";
           EvPrint "Pipeline submitted. Logfiles are stored at `/home/user/.workflows/tmpq3x/logs`"])).
Proof.
  eexists.
  refine (accepted_submission_keeps_directory ".workflows" []
            (mkWorld example_graph []) _ (nodes example_graph)
            example_graph example_graph example_graph example_graph example_graph
            eq_refl eq_refl eq_refl eq_refl _ eq_refl eq_refl _ eq_refl).
  - discriminate.
  - vm_compute. reflexivity.
Defined.

Lemma task_files_do_not_collide_witness :
  "/run" +:+ "/" +:+ node_task_filename (mkNode 1%positive "prepare" 1 [] []) ≠
  "/run" +:+ "/" +:+ node_task_filename (mkNode 2%positive "train" 1 [] [1%positive]).
Proof.
  refine (task_files_do_not_collide "/run" (mkNode 1%positive "prepare" 1 [] [])
            (mkNode 2%positive "train" 1 [] [1%positive]) _).
  simpl. discriminate.
Defined.

Lemma default_directives_follow_user_directives_witness :
  let node := mkNode 2%positive "train" 1 [("--mem=", "4G")] [1%positive] in
  sbatch_directives (add_default_attributes_node "/run" node) =
    sbatch_directives node ++
    ["#SBATCH --export=ALL"; "#SBATCH --parsable"; "#SBATCH --requeue";
     "#SBATCH --job-name=" +:+ quote +:+ name node +:+ quote;
     "#SBATCH --output=" +:+ quote +:+
       ("/run" +:+ "/logs/" +:+ name node +:+
        (if decide (1 < tasks node)%Z then "-%A_%a.log" else "-%j.log")) +:+ quote].
Proof.
  intros node.
  refine (default_directives_follow_user_directives "/run" node _).
  intros k Hk Hin. simpl in Hin. apply list_elem_of_singleton in Hin as ->.
  revert Hk. apply (bool_decide_unpack _). vm_compute. reflexivity.
Defined.

Lemma prepare_submission_succeeds_witness :
  let w := mkWorld example_graph [] in
  let prepared := mkDAWG (map (add_default_attributes_node "/run") (nodes (workflow w))) in
  (prepare_submission_on example_os_no_directory "/run" w).1 =
    Raise (Exn (OtherError "FileNotFoundError") "/run/140001.sbatch") ∧
  ∃ body,
    prepare_submission_on reliable "/run" w =
      (Ok tt,
       mkWorld prepared
         (trace w ++
          map (λ node, EvWriteFile ("/run" +:+ "/" +:+ node_task_filename node)
                                   (file_text (task_file "/run" node)))
              (nodes prepared) ++
          [EvProgram;
           EvWriteFile ("/run" +:+ "/pipeline")
             (file_text ("#!/usr/bin/env bash" :: ("mkdir -p " +:+ "/run" +:+ "/logs") :: body)
              +:+ ("echo " +:+ quote +:+ job_variables (length (nodes prepared))) +:+
                  quote +:+ " > " +:+ "/run" +:+ "/job_identifiers")])) ∧
    length body = length (nodes prepared) ∧
    ∀ i task, nodes prepared !! i = Some task →
      ∃ indices,
        Forall2 (λ d k, k ≤ i ∧ ∃ t', nodes prepared !! k = Some t' ∧ identifier t' = d)
                (dependencies task) indices ∧
        body !! i = Some (sbatch_line "/run" i task indices).
Proof.
  intros w prepared. split; [vm_compute; reflexivity|].
  exact (prepare_submission_succeeds reliable "/run" w (nodes prepared) eq_refl
           (topological_add_default_attributes "/run" _ example_graph_topological)
           (λ _ _ _, eq_refl)).
Defined.

Lemma dependency_changes_nothing_else_witness :
  ∃ g', dependency 3%positive (Single 4%positive) example_graph = (Ok 3%positive, g') ∧
        (∀ c, registered g' c ↔
              registered example_graph c ∨ c = 3%positive ∨ c ∈ as_list (Single 4%positive)) ∧
        (∀ c x, x ∈ deps_of g' c ↔
                x ∈ deps_of example_graph c ∨
                (c = 3%positive ∧ x ∈ as_list (Single 4%positive))) ∧
        (∀ c n, find_node example_graph c = Some n →
           ∃ n', find_node g' c = Some n' ∧
                 name n' = name n ∧ tasks n' = tasks n ∧ attributes n' = attributes n).
Proof.
  refine (dependency_changes_nothing_else 3%positive (Single 4%positive) example_graph _).
  simpl. intros Hin. apply list_elem_of_singleton in Hin. discriminate.
Defined.

End Examples.

(** ** Stacking the decorators, and a task that names itself *)

Section Stacking.
Context `{Collaborators}.

Lemma find_node_conda_map f environment g c :
  find_node (mkDAWG (map (λ n, if bool_decide (identifier n = f)
                               then setitem "conda" environment n else n) (nodes g))) c =
  (λ n, if bool_decide (identifier n = f) then setitem "conda" environment n else n)
    <$> find_node g c.
Proof. apply find_node_map. intros m. by case_bool_decide. Qed.

Lemma add_and_get_node_conda_map f environment d g :
  d ≠ f ∨ registered g f →
  add_and_get_node d
    (mkDAWG (map (λ n, if bool_decide (identifier n = f)
                       then setitem "conda" environment n else n) (nodes g))) =
  (Ok d,
   mkDAWG (map (λ n, if bool_decide (identifier n = f)
                     then setitem "conda" environment n else n)
               (nodes (add_and_get_node d g).2))).
Proof.
  intros Hd. unfold add_and_get_node. rewrite find_node_conda_map.
  destruct (find_node g d) as [n|] eqn:Hn; simpl; [done|].
  rewrite map_app. simpl. rewrite bool_decide_eq_false_2; [done|].
  destruct Hd as [?|[m Hm]]; [done|]. intros ->. congruence.
Qed.

Lemma add_dependency_conda_map f environment c d g :
  add_dependency c d
    (mkDAWG (map (λ n, if bool_decide (identifier n = f)
                       then setitem "conda" environment n else n) (nodes g))) =
  ((add_dependency c d g).1,
   mkDAWG (map (λ n, if bool_decide (identifier n = f)
                     then setitem "conda" environment n else n)
               (nodes (add_dependency c d g).2))).
Proof.
  unfold add_dependency. case_bool_decide; [done|]. simpl. do 2 f_equal.
  rewrite !map_map. apply map_ext. intros n.
  destruct (bool_decide (identifier n = f)) eqn:E1,
           (bool_decide (identifier n = c)) eqn:E2; simpl; rewrite ?E1, ?E2; done.
Qed.

Lemma dependency_loop_conda_map f environment c ds g :
  c ∉ ds → registered g f →
  dependency_loop c ds
    (mkDAWG (map (λ n, if bool_decide (identifier n = f)
                       then setitem "conda" environment n else n) (nodes g))) =
  ((dependency_loop c ds g).1,
   mkDAWG (map (λ n, if bool_decide (identifier n = f)
                     then setitem "conda" environment n else n)
               (nodes (dependency_loop c ds g).2))).
Proof.
  revert g. induction ds as [|d ds IH]; intros g Hnot Hreg; simpl; [done|].
  apply not_elem_of_cons in Hnot as [Hne Hnot].
  rewrite bool_decide_eq_false_2 by done. unfold bind.
  rewrite add_and_get_node_conda_map by by right.
  destruct (add_and_get_node_spec d g) as (g1 & E1 & R1 & _). rewrite E1. simpl.
  rewrite add_dependency_conda_map.
  destruct (add_dependency_spec c d g1 Hne) as (g2 & E2 & R2 & _). rewrite E2. simpl.
  apply IH; [done|]. apply R2, R1. by left.
Qed.

Lemma bind_ok {S A B} (m : M S A) (k : A → M S B) s a s' :
  m s = (Ok a, s') → bind m k s = k a s'.
Proof. intros Hm. unfold bind. by rewrite Hm. Qed.

Lemma add_and_get_node_registered c g : registered g c → add_and_get_node c g = (Ok c, g).
Proof. intros [n Hn]. unfold add_and_get_node. by rewrite Hn. Qed.

Lemma conda_run f environment g :
  conda f environment g =
    (Ok f,
     mkDAWG (map (λ n, if bool_decide (identifier n = f)
                       then setitem "conda" environment n else n)
                 (nodes (add_and_get_node f g).2))).
Proof.
  unfold conda. destruct (add_and_get_node_spec f g) as (g1 & E1 & _).
  by rewrite (bind_ok _ _ _ _ _ E1), E1.
Qed.

Lemma dependency_run f deps g :
  f ∉ as_list deps →
  ∃ g1 g2, add_and_get_node f g = (Ok f, g1) ∧
           dependency_loop f (as_list deps) g1 = (Ok tt, g2) ∧
           dependency f deps g = (Ok f, g2) ∧
           registered g1 f ∧ registered g2 f.
Proof.
  intros Hnot. destruct (add_and_get_node_spec f g) as (g1 & E1 & R1 & _).
  assert (registered g1 f) as Hreg by (apply R1; by right).
  destruct (dependency_loop_ok f (as_list deps) g1 Hnot Hreg) as (g2 & E2 & R2 & _).
  exists g1, g2. split; [done|]. split; [done|]. split; [|split; [done|]].
  - unfold dependency. rewrite (bind_ok _ _ _ _ _ E1), (bind_ok _ _ _ _ _ E2). done.
  - apply R2. by left.
Qed.

(** X16.  The two decorators can be stacked in either order: declaring the
    dependencies of [f] and then its conda environment gives the same graph
    as declaring the environment first. *)
Theorem decorators_commute (f : Callable) (deps : dependencies_arg)
    (environment : string) (g : DAWG) :
  f ∉ as_list deps →
  (dependency f deps ;;; conda f environment) g =
  (conda f environment ;;; dependency f deps) g.
Proof.
  intros Hnot.
  destruct (dependency_run f deps g Hnot) as (g1 & g2 & E1 & E2 & E & Hreg1 & Hreg2).
  rewrite (bind_ok _ _ _ _ _ E), (bind_ok _ _ _ _ _ (conda_run f environment g)).
  rewrite conda_run, (add_and_get_node_registered f g2 Hreg2), E1. simpl.
  set (cm := λ x : DAWG,
         mkDAWG (map (λ n, if bool_decide (identifier n = f)
                           then setitem "conda" environment n else n) (nodes x))).
  assert (add_and_get_node f (cm g1) = (Ok f, cm g1)) as A1.
  { unfold cm. rewrite add_and_get_node_conda_map by by right.
    by rewrite (add_and_get_node_registered f g1 Hreg1). }
  assert (dependency_loop f (as_list deps) (cm g1) = (Ok tt, cm g2)) as A2.
  { unfold cm.
    rewrite (dependency_loop_conda_map f environment f (as_list deps) g1 Hnot Hreg1).
    by rewrite E2. }
  unfold dependency. by rewrite (bind_ok _ _ _ _ _ A1), (bind_ok _ _ _ _ _ A2).
Qed.

(** X3.  A task that names itself as its only dependency is not rejected by
    [generate_submission_script]: the index just assigned to it is found,
    and its line waits on its own job variable. *)
Theorem self_dependency_waits_on_own_job (dir : string) (st : script_state)
    (task_index : nat) (task : Node) :
  dependencies task = [identifier task] →
  submission_step dir st task_index task =
    Ok (mkScript
          (st_lines st ++
           ["t" +:+ pretty task_index +:+ "=$(sbatch --dependency=afterok:$t" +:+
            pretty task_index +:+ " " +:+ dir +:+ "/" +:+ node_task_filename task +:+ ")"])
          (st_job_identifiers st +:+ "$t" +:+ pretty task_index +:+ newline)
          (<[identifier task := task_index]> (st_tasks st))).
Proof.
  intros Hdeps.
  rewrite (submission_step_exact dir st task_index task [task_index]).
  - unfold sbatch_line. cbn [job_references]. rewrite append_empty_r.
    change "=$(sbatch --dependency=afterok:$t"
      with ("=$(sbatch " +:+ "--dependency=afterok" +:+ ":$t").
    by rewrite !append_assoc.
  - rewrite Hdeps. constructor; [|constructor]. by rewrite lookup_insert_eq.
Qed.

End Stacking.

Section MoreExamples.
#[local] Existing Instance example_env.

Lemma decorators_commute_witness :
  (dependency 3%positive (Many [1%positive; 2%positive]) ;;; conda 3%positive "ml")
    (mkDAWG []) =
  (conda 3%positive "ml" ;;; dependency 3%positive (Many [1%positive; 2%positive]))
    (mkDAWG []).
Proof.
  refine (decorators_commute 3%positive (Many [1%positive; 2%positive]) "ml" (mkDAWG []) _).
  apply (bool_decide_unpack _). vm_compute. reflexivity.
Defined.

Lemma self_dependency_waits_on_own_job_witness :
  let task := mkNode 5%positive "loop" 1 [] [5%positive] in
  submission_step "/run" (script_init "/run") 0 task =
    Ok (mkScript
          (st_lines (script_init "/run") ++
           ["t" +:+ pretty 0 +:+ "=$(sbatch --dependency=afterok:$t" +:+
            pretty 0 +:+ " " +:+ "/run" +:+ "/" +:+ node_task_filename task +:+ ")"])
          (st_job_identifiers (script_init "/run") +:+ "$t" +:+ pretty 0 +:+ newline)
          (<[identifier task := 0]> (st_tasks (script_init "/run")))).
Proof.
  intros task.
  exact (self_dependency_waits_on_own_job "/run" (script_init "/run") 0 task eq_refl).
Defined.

End MoreExamples.
